(** * Scopus_APIs.ipynb: query builder, request formatter, page fetcher and
      the cursor pagination loop, embedded in Rocq.

    The notebook's cells are translated function by function.  A Python
    [str] is a [string] read as a sequence of code points below 256, which
    is all that a response header can hold (text beyond Latin-1 has no
    counterpart here); the search-parameter dictionary is an association
    list in insertion order, the query-parameter dictionary handed to
    [requests.get] is a [gmap], and the cells that talk to the network run in
    a small state-and-exception monad over the notebook's globals. *)

From Stdlib Require Import ZArith Ascii String List Lia QArith.
From Stdlib Require Import DecimalString.
From stdpp Require Import base strings gmap.

Local Open Scope Z_scope.
Local Open Scope string_scope.

(* Concatenation has to compute on literals in the proofs below. *)
#[local] Arguments String.append _ _ : simpl nomatch.

(** ** Python text primitives used by the cells *)

Module PyText.

(** [s.startswith(pat)]. *)
Fixpoint starts_with (pat s : string) : bool :=
  match pat, s with
  | EmptyString, _ => true
  | String _ _, EmptyString => false
  | String a pat', String b s' => Ascii.eqb a b && starts_with pat' s'
  end.

(** Number of positions of [s] at which [pat] occurs. *)
Fixpoint occurrences (pat s : string) : nat :=
  match s with
  | EmptyString => if starts_with pat EmptyString then 1%nat else 0%nat
  | String _ s' =>
      ((if starts_with pat s then 1 else 0) + occurrences pat s')%nat
  end.

(** [pat in s]. *)
Definition contains (pat s : string) : bool :=
  negb (Nat.eqb (occurrences pat s) 0).

(** Whether character [c] occurs in [s]. *)
Fixpoint has_char (c : ascii) (s : string) : bool :=
  match s with
  | EmptyString => false
  | String b s' => Ascii.eqb c b || has_char c s'
  end.

(** [str(n)] / [f'{n}'] for an [int]: decimal digits with a leading minus
    sign for negative numbers. *)
Definition str_of_int (n : Z) : string :=
  NilZero.string_of_int (Z.to_int n).

(** The blanks that [int()] skips around a literal: tab to carriage return
    and the space, and, of the code points from 127 on, the two that are
    white space (next line, 133, and the no-break space, 160).  The
    separators 28 to 31 are not skipped. *)
Definition is_space (c : ascii) : bool :=
  let n := nat_of_ascii c in
  ((9 <=? n) && (n <=? 13) || (n =? 32) || (n =? 133) || (n =? 160))%nat.

(** [s] without the blanks in front of it. *)
Fixpoint lstrip (s : string) : string :=
  match s with
  | String c s' => if is_space c then lstrip s' else s
  | EmptyString => EmptyString
  end.

Fixpoint rev_onto (s acc : string) : string :=
  match s with
  | EmptyString => acc
  | String c s' => rev_onto s' (String c acc)
  end.

(** [s] without the blanks around it, as [int()] reads it. *)
Definition strip (s : string) : string :=
  rev_onto (lstrip (rev_onto (lstrip s) EmptyString)) EmptyString.

Definition digit_of (c : ascii) : option Z :=
  let n := nat_of_ascii c in
  if ((48 <=? n) && (n <=? 57))%nat then Some (Z.of_nat n - 48) else None.

(** Digits of a decimal literal, most significant first; a single
    underscore is allowed between two digits.  [after_digit] tells whether
    the previous character was a digit. *)
Fixpoint digits (acc : Z) (after_digit : bool) (s : string) : option Z :=
  match s with
  | EmptyString => if after_digit then Some acc else None
  | String c s' =>
      match digit_of c with
      | Some d => digits (10 * acc + d) true s'
      | None =>
          if Ascii.eqb c "_" && after_digit
          then match s' with
               | EmptyString => None
               | String c' _ =>
                   match digit_of c' with
                   | Some _ => digits acc false s'
                   | None => None
                   end
               end
          else None
      end
  end.

(** [int(s)] for a [str] argument in base ten: surrounding blanks are
    dropped, a sign is optional, and anything else that is not a decimal
    literal raises [ValueError] (here [None]).  Below 256 the only decimal
    digits are [0] to [9]. *)
Definition int (s : string) : option Z :=
  match strip s with
  | String "-" s' => Z.opp <$> digits 0 false s'
  | String "+" s' => digits 0 false s'
  | s' => digits 0 false s'
  end.

(** [s.lower()]: the capitals A to Z and, above 127, the capitals 192 to
    222 other than the multiplication sign move up by 32. *)
Definition lower_char (c : ascii) : ascii :=
  let n := nat_of_ascii c in
  if ((65 <=? n) && (n <=? 90)
      || (192 <=? n) && (n <=? 222) && negb (n =? 215))%nat
  then ascii_of_nat (n + 32)
  else c.

Fixpoint lower (s : string) : string :=
  match s with
  | EmptyString => EmptyString
  | String c s' => String (lower_char c) (lower s')
  end.

End PyText.

(** ** QueryBuilder: [search_builder] *)

Module QueryBuilder.
Import PyText.

(** A value of the search-parameter dictionary: a string or an int. *)
Inductive value :=
| VStr (s : string)
| VInt (n : Z).

(** Python truthiness ([if v] / [... and v]). *)
Definition truthy (v : value) : bool :=
  match v with
  | VStr s => negb (String.eqb s "")
  | VInt n => negb (Z.eqb n 0)
  end.

(** [f'{v}']. *)
Definition fmt (v : value) : string :=
  match v with
  | VStr s => s
  | VInt n => str_of_int n
  end.

(** The guarded separator: [if search_string != '': search_string += ' AND ']. *)
Definition add_separator (search_string : string) : string :=
  if negb (String.eqb search_string "")
  then search_string +:+ " AND "
  else search_string.

(** One pass of the [for k, v in search_string_parameters.items()] body. *)
Definition search_builder_body (search_string : string) (kv : string * value)
  : string :=
  let '(k, v) := kv in
  if String.eqb k "start_year" && truthy v then
    add_separator search_string +:+ ("PUBYEAR > " +:+ fmt v)
  else if String.eqb k "end_year" && truthy v then
    add_separator search_string +:+ ("PUBYEAR < " +:+ fmt v)
  else if truthy v then
    add_separator search_string +:+ (k +:+ "(" +:+ fmt v +:+ ")")
  else search_string.

Definition search_builder (search_string_parameters : list (string * value))
  : string :=
  fold_left search_builder_body search_string_parameters "".

(** The specification's reading, to be compared with [search_builder]:
    the term of a field, the fields that carry a value, and the
    conjunction of their terms. *)
Definition term (kv : string * value) : string :=
  let '(k, v) := kv in
  if String.eqb k "start_year" then "PUBYEAR > " +:+ fmt v
  else if String.eqb k "end_year" then "PUBYEAR < " +:+ fmt v
  else k +:+ "(" +:+ fmt v +:+ ")".

Definition is_default (v : value) : bool :=
  match v with
  | VStr s => String.eqb s ""
  | VInt n => Z.eqb n 0
  end.

Definition non_default_fields (ps : list (string * value))
  : list (string * value) :=
  List.filter (fun kv => negb (is_default (snd kv))) ps.

Definition spec_query (ps : list (string * value)) : string :=
  String.concat " AND " (List.map term (non_default_fields ps)).

(** Neither the field name nor the rendered value carries the word AND. *)
Definition and_free (kv : string * value) : bool :=
  negb (contains "AND" (fst kv)) && negb (contains "AND" (fmt (snd kv))).

End QueryBuilder.

(** ** Values exchanged with the provider *)

(** A decoded JSON value; result records are kept as they arrive. *)
#[local] Unset Elimination Schemes.
Inductive json :=
| JNull
| JBool (b : bool)
| JNumber (literal : string)
| JString (s : string)
| JArray (items : list json)
| JObject (members : list (string * json)).
#[local] Set Elimination Schemes.

(** The [cursor] object of a search page.  A field is [None] when the key is
    missing from the decoded object. *)
Record Cursor := {
  at_current : option string;   (* '@current' *)
  at_next : option string       (* '@next' *)
}.

(** The ['search-results'] object, read into the keys the notebook uses. *)
Record SearchResults := {
  opensearch_totalResults : option string;   (* 'opensearch:totalResults' *)
  cursor : option Cursor;                    (* 'cursor' *)
  entry : option (list json)                 (* 'entry' *)
}.

(** What [r.json()] returns: the whole document, and its ['search-results']
    member when it has one. *)
Record Document := {
  document : json;
  search_results : option SearchResults
}.

(** [r.headers], restricted to the three rate-limit headers. *)
Record Headers := {
  X_RateLimit_Limit : option string;
  X_RateLimit_Remaining : option string;
  X_RateLimit_Reset : option string
}.

(** A [requests.Response]; [body] is [None] when the payload is not JSON. *)
Record Response := {
  status_code : Z;
  body : option Document;
  headers : Headers
}.

(** The arguments of one [requests.get] call. *)
Record Request := {
  req_url : string;
  req_params : gmap string string;
  req_headers : gmap string string
}.

Inductive exn :=
| HTTPError (status : Z)
| RequestException
| JSONDecodeError
| KeyError (key : string)
| ValueError
| OverflowError
| OSError
| NameError (name : string).

(** One argument of a [print] call. *)
Inductive printable :=
| PStr (s : string)
| PInt (n : Z)
| PDatetime (epoch : Z).

(** What the notebook does to the outside world, in order. *)
Inductive event :=
| EvSleep (seconds : Q)
| EvGet (r : Request)
| EvPrint (args : list printable).

(** A dataframe is the sequence of its rows, each row the record it was
    built from. *)
Definition DataFrame := list json.

Definition pd_DataFrame (data : list json) : DataFrame := data.
Definition pd_concat (objs : list DataFrame) : DataFrame := List.concat objs.
Definition len (d : DataFrame) : Z := Z.of_nat (List.length d).

(** Dictionaries passed as [params] are objects on the heap.  Location
    [default_params] holds the dictionary created once, when
    [def connect_to_endpoint(full_url, params={'cursor': '*'}, ...)] is
    executed, and shared by every call that omits [params]. *)
Definition loc := nat.
Definition default_params : loc := 0%nat.

(** The notebook's globals and the observable history. *)
Record World := {
  api_key : string;
  search_string : string;
  next_ : string;
  flag : bool;
  df : option DataFrame;              (* [None]: the name is not bound *)
  dicts : loc -> gmap string string;
  calls : nat;                        (* GET requests issued so far *)
  trace : list event
}.

(** How the platform refuses an epoch that it cannot turn into a local
    [datetime]: [OverflowError] (outside its [time_t]), [ValueError] (year
    out of range) or [OSError] (its [localtime] failed). *)
Inductive conversion_error :=
| OutOfTimeT
| YearOutOfRange
| LocaltimeFailed.

Definition exn_of_conversion_error (c : conversion_error) : exn :=
  match c with
  | OutOfTimeT => OverflowError
  | YearOutOfRange => ValueError
  | LocaltimeFailed => OSError
  end.

(** What lies outside the notebook: the provider, asked with the number of
    requests already made and the request ([None]: no response arrives);
    whether the platform can turn an epoch into a local [datetime]; and how
    it refuses one that it cannot. *)
Record Env := {
  server : nat -> Request -> option Response;
  localtime_ok : Z -> bool;
  localtime_error : Z -> conversion_error
}.

(** ** A state-and-exception monad for the cells *)

Inductive result (A : Type) :=
| Ok (a : A)
| Raise (e : exn).
Arguments Ok {A} a.
Arguments Raise {A} e.

Definition M (A : Type) : Type := World -> result A * World.

Definition ret {A} (a : A) : M A := fun w => (Ok a, w).
Definition raise {A} (e : exn) : M A := fun w => (Raise e, w).
Definition bind {A B} (m : M A) (k : A -> M B) : M B :=
  fun w =>
    match m w with
    | (Ok a, w') => k a w'
    | (Raise e, w') => (Raise e, w')
    end.

Declare Scope cell_scope.
Delimit Scope cell_scope with cell.
Notation "x <- m ; k" := (bind m (fun x => k))
  (at level 20, m at level 100, k at level 200, only parsing) : cell_scope.
Notation "' pat <- m ; k" := (bind m (fun x => match x with pat => k end))
  (at level 20, pat pattern, m at level 100, k at level 200, only parsing)
  : cell_scope.
Notation "m ;; k" := (bind m (fun _ => k))
  (at level 100, k at level 200, only parsing, right associativity)
  : cell_scope.
Local Open Scope cell_scope.

Definition gets {A} (f : World -> A) : M A := fun w => (Ok (f w), w).
Definition modify (f : World -> World) : M unit := fun w => (Ok tt, f w).

Definition set_next_ (v : string) (w : World) : World :=
  {| api_key := api_key w; search_string := search_string w; next_ := v;
     flag := flag w; df := df w; dicts := dicts w; calls := calls w;
     trace := trace w |}.
Definition set_flag (v : bool) (w : World) : World :=
  {| api_key := api_key w; search_string := search_string w; next_ := next_ w;
     flag := v; df := df w; dicts := dicts w; calls := calls w;
     trace := trace w |}.
Definition set_df (v : DataFrame) (w : World) : World :=
  {| api_key := api_key w; search_string := search_string w; next_ := next_ w;
     flag := flag w; df := Some v; dicts := dicts w; calls := calls w;
     trace := trace w |}.
Definition set_item (p : loc) (k v : string) (w : World) : World :=
  {| api_key := api_key w; search_string := search_string w; next_ := next_ w;
     flag := flag w; df := df w;
     dicts := fun q => if Nat.eqb q p then <[k := v]> (dicts w p) else dicts w q;
     calls := calls w; trace := trace w |}.
Definition emit (e : event) (w : World) : World :=
  {| api_key := api_key w; search_string := search_string w; next_ := next_ w;
     flag := flag w; df := df w; dicts := dicts w; calls := calls w;
     trace := trace w ++ [e] |}.
Definition count_call (w : World) : World :=
  {| api_key := api_key w; search_string := search_string w; next_ := next_ w;
     flag := flag w; df := df w; dicts := dicts w; calls := S (calls w);
     trace := trace w |}.

(** [d[key]] on a decoded object: [KeyError] when the key is missing. *)
Definition getitem {A} (key : string) (field : option A) : M A :=
  match field with
  | Some v => ret v
  | None => raise (KeyError key)
  end.

(** [int(s)]. *)
Definition int (s : string) : M Z :=
  match PyText.int s with
  | Some n => ret n
  | None => raise ValueError
  end.

(** [h[key]] on [r.headers], a case-insensitive dictionary: the header is
    found under any spelling of its name, and the [KeyError] of a missing
    header carries the name in lower case. *)
Definition header_getitem (key : string) (field : option string) : M string :=
  match field with
  | Some v => ret v
  | None => raise (KeyError (PyText.lower key))
  end.

(** [datetime.fromtimestamp(t)]; the value is kept as its epoch. *)
Definition fromtimestamp (E : Env) (t : Z) : M Z :=
  if localtime_ok E t then ret t
  else raise (exn_of_conversion_error (localtime_error E t)).

Definition print (args : list printable) : M unit :=
  modify (emit (EvPrint args)).

(** [time.sleep(seconds)]. *)
Definition sleep (seconds : Q) : M unit :=
  modify (emit (EvSleep seconds)).

(** [requests.get(url, params=..., headers=...)]: one request goes out. *)
Definition requests_get (E : Env) (r : Request) : M Response :=
  fun w =>
    let w' := count_call (emit (EvGet r) w) in
    match server E (calls w) r with
    | Some resp => (Ok resp, w')
    | None => (Raise RequestException, w')
    end.

(** [r.raise_for_status()]: a 4xx or 5xx status raises [HTTPError]. *)
Definition raise_for_status (r : Response) : M unit :=
  if (400 <=? status_code r)%Z && (status_code r <? 600)%Z
  then raise (HTTPError (status_code r))
  else ret tt.

(** [r.json()]. *)
Definition json_of (r : Response) : M Document :=
  match body r with
  | Some d => ret d
  | None => raise JSONDecodeError
  end.

(** [template.format(name=value, ...)] for templates whose replacement fields are
    plain names: [{name}] is replaced by the keyword's value and [{{], [}}]
    stand for a brace.  [field] is the name being read, if any. *)
Fixpoint format_from (template : string) (field : option string)
    (kwargs : list (string * string)) : result string :=
  match template with
  | EmptyString =>
      match field with
      | None => Ok EmptyString
      | Some _ => Raise ValueError
      end
  | String c rest =>
      match field with
      | Some name =>
          if Ascii.eqb c "}" then
            match List.find (fun kv => String.eqb (fst kv) name) kwargs with
            | Some (_, v) =>
                match format_from rest None kwargs with
                | Ok out => Ok (v +:+ out)
                | Raise e => Raise e
                end
            | None => Raise (KeyError name)
            end
          else format_from rest (Some (name +:+ String c EmptyString)) kwargs
      | None =>
          if Ascii.eqb c "{" then
            match rest with
            | String "{" rest' =>
                match format_from rest' None kwargs with
                | Ok out => Ok (String "{" out)
                | Raise e => Raise e
                end
            | _ => format_from rest (Some EmptyString) kwargs
            end
          else if Ascii.eqb c "}" then
            match rest with
            | String "}" rest' =>
                match format_from rest' None kwargs with
                | Ok out => Ok (String "}" out)
                | Raise e => Raise e
                end
            | _ => Raise ValueError
            end
          else
            match format_from rest None kwargs with
            | Ok out => Ok (String c out)
            | Raise e => Raise e
            end
      end
  end.

Definition format (template : string) (kwargs : list (string * string))
  : M string :=
  fun w => (format_from template None kwargs, w).

Definition nl : string := String (ascii_of_nat 10) EmptyString.

(** ** Scopus Search API: RequestFormatter and PageFetcher *)

Module Search.

Definition url_template : string :=
  "https://api.elsevier.com/content/search/scopus?query={query}&apiKey={api_key}".

(** [create_url(search_string)]; [api_key] is the notebook's global. *)
Definition create_url (search_string : string) : M string :=
  let query := search_string in
  key <- gets api_key;
  full_url <- format url_template [("query", query); ("api_key", key)];
  ret full_url.

(** [connect_to_endpoint(full_url, params, next_)]; [params] is the
    dictionary object the caller passes, [default_params] when omitted. *)
Definition connect_to_endpoint (E : Env) (full_url : string) (params : loc)
    (next_ : string) : M (SearchResults * Headers) :=
  modify (set_item params "cursor" next_);;
  d <- gets (fun w => dicts w params);
  r <- requests_get E
         {| req_url := full_url; req_params := d; req_headers := ∅ |};
  raise_for_status r;;
  j <- json_of r;
  sr <- getitem "search-results" (search_results j);
  ret (sr, headers r).

End Search.

(** ** Abstract Retrieval API: RequestFormatter and PageFetcher *)

Module Retrieval.

Definition url_template : string :=
  "https://api.elsevier.com/content/abstract/doi/{doi}?&apiKey={api_key}".

(** [create_url(doi)]. *)
Definition create_url (doi : string) : M string :=
  key <- gets api_key;
  full_url <- format url_template [("doi", doi); ("api_key", key)];
  ret full_url.

(** [connect_to_endpoint(full_url)]. *)
Definition connect_to_endpoint (E : Env) (full_url : string)
  : M (json * Headers) :=
  r <- requests_get E
         {| req_url := full_url; req_params := ∅;
            req_headers := {[ "Accept" := "application/json" ]} |};
  raise_for_status r;;
  j <- json_of r;
  ret (document j, headers r).

End Retrieval.

(** ** PaginationDriver: the [while flag:] cell *)

(** The pause between two calls, [time.sleep(0.12)]. *)
Definition pacing : Q := (12 # 100)%Q.

Definition too_many_results : string :=
  nl +:+ "** Too many results to collect this week - stopping loop. **".

(** How one pass through the loop body ends: it falls through to the next
    test of [flag], or it leaves the loop with [break]. *)
Inductive ctrl :=
| Next
| Break.

(** [df], or [NameError] when the name was never bound. *)
Definition read_df : M DataFrame :=
  fun w =>
    match df w with
    | Some d => (Ok d, w)
    | None => (Raise (NameError "df"), w)
    end.

(** The body of [while flag:]. *)
Definition loop_body (E : Env) : M ctrl :=
  sleep pacing;;
  q <- gets search_string;
  full_url <- Search.create_url q;
  cur_token <- gets next_;
  '(r_json, r_headers) <-
     Search.connect_to_endpoint E full_url default_params cur_token;
  raw_total <- getitem "opensearch:totalResults" (opensearch_totalResults r_json);
  total_results <- int raw_total;
  c <- getitem "cursor" (cursor r_json);
  current <- getitem "@current" (at_current c);
  how <-
    (if String.eqb current "*" then
       print [PStr "Collecting"; PInt total_results; PStr "results."];;
       limit <-
         header_getitem "X-RateLimit-Limit" (X_RateLimit_Limit r_headers);
       remaining <-
         header_getitem "X-RateLimit-Remaining" (X_RateLimit_Remaining r_headers);
       reset <-
         header_getitem "X-RateLimit-Reset" (X_RateLimit_Reset r_headers);
       reset_epoch <- int reset;
       resets_on <- fromtimestamp E reset_epoch;
       print [PStr "Limit:"; PStr limit; PStr (nl +:+ "Remaining:");
              PStr remaining; PStr (nl +:+ "Resets on:"); PDatetime resets_on];;
       rows <- getitem "entry" (entry r_json);
       modify (set_df (pd_DataFrame rows));;
       remaining <-
         header_getitem "X-RateLimit-Remaining" (X_RateLimit_Remaining r_headers);
       remaining_calls <- int remaining;
       if (total_results >? remaining_calls)%Z then
         print [PStr too_many_results];;
         ret Break
       else ret Next
     else
       c <- getitem "cursor" (cursor r_json);
       next_token <- getitem "@next" (at_next c);
       c <- getitem "cursor" (cursor r_json);
       current <- getitem "@current" (at_current c);
       if String.eqb next_token current then
         d <- read_df;
         print [PStr "Loop done. Collected"; PInt (len d); PStr "rows."];;
         modify (set_flag false);;
         ret Next
       else
         rows <- getitem "entry" (entry r_json);
         let df_add := pd_DataFrame rows in
         d <- read_df;
         modify (set_df (pd_concat [d; df_add]));;
         ret Next);
  match how with
  | Break => ret Break
  | Next =>
      c <- getitem "cursor" (cursor r_json);
      next_token <- getitem "@next" (at_next c);
      modify (set_next_ next_token);;
      ret Next
  end.

(** How a run of the cell ends.  [Done]: [flag] became false.
    [QuotaExceeded]: the loop was left by its [break].  [Error]: an exception
    escaped the cell.  [OutOfFuel]: the loop was still running when the
    allotted number of passes was used up. *)
Inductive outcome :=
| Done (w : World)
| QuotaExceeded (w : World)
| Error (e : exn) (w : World)
| OutOfFuel (w : World).

(** [while flag: ...], with at most [fuel] passes through the body. *)
Fixpoint while_flag (E : Env) (fuel : nat) (w : World) : outcome :=
  if flag w then
    match fuel with
    | O => OutOfFuel w
    | S fuel' =>
        match loop_body E w with
        | (Ok Next, w') => while_flag E fuel' w'
        | (Ok Break, w') => QuotaExceeded w'
        | (Raise e, w') => Error e w'
        end
    end
  else Done w.

(** The whole cell: [next_ = '*'], [flag = True], then the loop. *)
Definition pagination (E : Env) (fuel : nat) (w : World) : outcome :=
  while_flag E fuel (set_flag true (set_next_ "*" w)).

Definition is_done (o : outcome) : bool :=
  match o with
  | Done _ => true
  | _ => false
  end.

Definition final_world (o : outcome) : World :=
  match o with
  | Done w | QuotaExceeded w | Error _ w | OutOfFuel w => w
  end.

(** [n] consecutive passes through the body, each falling through with
    [flag] still set. *)
Fixpoint passes (E : Env) (n : nat) (w : World) : option World :=
  match n with
  | O => Some w
  | S n' =>
      if flag w then
        match loop_body E w with
        | (Ok Next, w') => passes E n' w'
        | _ => None
        end
      else None
  end.

(** The requests of a history, in order. *)
Fixpoint gets_of (t : list event) : list Request :=
  match t with
  | [] => []
  | EvGet r :: t' => r :: gets_of t'
  | _ :: t' => gets_of t'
  end.

(** Every request in the history comes directly after the pacing pause:
    [after_pause] tells whether the event just before was that pause. *)
Fixpoint paced_from (after_pause : bool) (t : list event) : bool :=
  match t with
  | [] => true
  | EvSleep s :: t' => paced_from (Qeq_bool s pacing) t'
  | EvGet _ :: t' => after_pause && paced_from false t'
  | EvPrint _ :: t' => paced_from false t'
  end.

Definition paced (t : list event) : bool := paced_from false t.

Definition is_print (e : event) : bool :=
  match e with
  | EvPrint _ => true
  | _ => false
  end.

(** The URL the loop asks for, and the request it sends from world [w]. *)
Definition search_url (w : World) : string :=
  "https://api.elsevier.com/content/search/scopus?query="
    +:+ search_string w +:+ "&apiKey=" +:+ api_key w.

Definition next_request (w : World) : Request :=
  {| req_url := search_url w;
     req_params := <["cursor" := next_ w]> (dicts w default_params);
     req_headers := ∅ |}.

(** ** Well-formed answers, as a mocked fetcher would build them *)

Definition mk_page (total current next : string) (rows : list json)
  : SearchResults :=
  {| opensearch_totalResults := Some total;
     cursor := Some {| at_current := Some current; at_next := Some next |};
     entry := Some rows |}.

Definition mk_headers (limit remaining reset : string) : Headers :=
  {| X_RateLimit_Limit := Some limit;
     X_RateLimit_Remaining := Some remaining;
     X_RateLimit_Reset := Some reset |}.

Definition mk_response (status : Z) (page : SearchResults) (h : Headers)
  : Response :=
  {| status_code := status;
     body := Some {| document := JNull; search_results := Some page |};
     headers := h |}.

(** [wp m Q w]: running [m] from world [w] ends in a result and a world
    that satisfy [Q]. *)
Definition wp {A} (m : M A) (Q : result A -> World -> Prop) (w : World) : Prop :=
  Q (fst (m w)) (snd (m w)).

(** The world right after the request of a pass has gone out. *)
Definition after_request (w : World) : World :=
  count_call
    (emit (EvGet (next_request w))
       (set_item default_params "cursor" (next_ w) (emit (EvSleep pacing) w))).

(** The world after the first-page branch has stored the page, before the
    quota test. *)
Definition after_first_page (w : World) (total : Z) (limit remaining : string)
    (resets_on : Z) (rows : list json) : World :=
  set_df (pd_DataFrame rows)
    (emit (EvPrint [PStr "Limit:"; PStr limit; PStr (nl +:+ "Remaining:");
                    PStr remaining; PStr (nl +:+ "Resets on:");
                    PDatetime resets_on])
       (emit (EvPrint [PStr "Collecting"; PInt total; PStr "results."])
          (after_request w))).

(** The world after the last-page branch, with [d] the dataframe so far. *)
Definition after_last_page (w : World) (d : DataFrame) (next_token : string)
  : World :=
  set_next_ next_token
    (set_flag false
       (emit (EvPrint [PStr "Loop done. Collected"; PInt (len d); PStr "rows."])
          (after_request w))).

(** The two assignments that open the cell. *)
Definition start (w : World) : World := set_flag true (set_next_ "*" w).

(** ** A notebook at the start of a session, and mocked providers *)

(** The globals after the cells that define the functions have run, with the
    given key and query: [df], [next_] and [flag] are not assigned yet, and
    the default [params] dictionary is as the [def] created it. *)
Definition fresh_notebook (key query : string) : World :=
  {| api_key := key; search_string := query; next_ := ""; flag := false;
     df := None;
     dicts := fun p => if Nat.eqb p default_params
                       then {[ "cursor" := "*" ]} else ∅;
     calls := 0; trace := [] |}.

(** A provider that answers the n-th request with the n-th response of a
    script, whatever is asked, and stops answering when the script ends. *)
Definition scripted (script : list Response) : Env :=
  {| server := fun n _ => nth_error script n;
     localtime_ok := fun t => (0 <=? t)%Z && (t <? 253402300800)%Z;
     localtime_error := fun _ => YearOutOfRange |}.

(** Mocked answers: a first page of two records, a last page of one record
    whose cursor does not move, a first page that reports more results than
    calls remain, a server error, and two answers with status 304, one with
    a page as payload and one with no payload. *)
Definition row (title : string) : json :=
  JObject [("dc:title", JString title)].

Definition first_page : Response :=
  mk_response 200
    (mk_page "3" "*" "AoJ1" [row "Indexing"; row "Retrieval"])
    (mk_headers "20000" "19975" "1700000000").

Definition last_page : Response :=
  mk_response 200
    (mk_page "3" "AoJ1" "AoJ1" [row "Citation"])
    (mk_headers "20000" "19974" "1700000000").

Definition over_quota_page : Response :=
  mk_response 200
    (mk_page "100" "*" "AoJ1" [row "Indexing"; row "Retrieval"])
    (mk_headers "20000" "50" "1700000000").

Definition no_headers : Headers :=
  {| X_RateLimit_Limit := None; X_RateLimit_Remaining := None;
     X_RateLimit_Reset := None |}.

Definition server_error : Response :=
  {| status_code := 500; body := None; headers := no_headers |}.



(** The two-page mock, the over-quota mock and the mock whose second
    answer is a server error. *)
Definition two_pages : Env := scripted [first_page; last_page].
Definition over_quota : Env := scripted [over_quota_page].
Definition fails_second : Env := scripted [first_page; server_error].

(** The notebook before the paging cell of the ISSN example runs. *)
Definition issn_notebook : World :=
  fresh_notebook "7f59af"
    "ISSN(23301643) AND PUBYEAR > 2013 AND PUBYEAR < 2018".

(** The criteria of the ISSN example: a journal between two years. *)
Definition jasist_criteria : list (string * QueryBuilder.value) :=
  [("ISSN", QueryBuilder.VStr "23301643");
   ("AUTHOR-NAME", QueryBuilder.VStr ""); ("KEY", QueryBuilder.VStr "");
   ("PUBLISHER", QueryBuilder.VStr ""); ("EXACTSRCTITLE", QueryBuilder.VStr "");
   ("TITLE", QueryBuilder.VStr ""); ("start_year", QueryBuilder.VInt 2013);
   ("end_year", QueryBuilder.VInt 2018)].

(** ** Runs of several pages *)

(** What a mocked provider puts into one well-formed page. *)
Record PageData := {
  pd_total : string;
  pd_current : string;
  pd_next : string;
  pd_rows : list json;
  pd_headers : Headers
}.

Definition answer (p : PageData) : Response :=
  mk_response 200
    (mk_page (pd_total p) (pd_current p) (pd_next p) (pd_rows p))
    (pd_headers p).

Definition parses (s : string) : bool :=
  match PyText.int s with
  | Some _ => true
  | None => false
  end.

(** A page after the first whose cursor moves on. *)
Definition moving (p : PageData) : bool :=
  parses (pd_total p)
  && negb (String.eqb (pd_current p) "*")
  && negb (String.eqb (pd_next p) (pd_current p)).

(** The world after the last branch of the body has appended a page. *)
Definition after_middle_page (w : World) (d : DataFrame) (rows : list json)
    (next_token : string) : World :=
  set_next_ next_token
    (set_df (pd_concat [d; pd_DataFrame rows]) (after_request w)).

(** The ['cursor'] parameter of every request of a history, in order. *)
Definition cursors_of (t : list event) : list (option string) :=
  List.map (fun r => req_params r !! "cursor") (gets_of t).

Definition is_sleep (e : event) : bool :=
  match e with
  | EvSleep _ => true
  | _ => false
  end.

(** A provider that gives the same answer to every request. *)
Definition always (r : Response) : Env :=
  {| server := fun _ _ => Some r;
     localtime_ok := fun t => (0 <=? t)%Z && (t <? 253402300800)%Z;
     localtime_error := fun _ => YearOutOfRange |}.

(** Two pages between the first and the last of the mock, and the provider
    that serves the four in order. *)
Definition second_page : PageData :=
  {| pd_total := "5"; pd_current := "AoJ1"; pd_next := "AoJ2";
     pd_rows := [row "Citation"]; pd_headers := no_headers |}.

Definition third_page : PageData :=
  {| pd_total := "5"; pd_current := "AoJ2"; pd_next := "AoJ3";
     pd_rows := [row "Ranking"; row "Metrics"]; pd_headers := no_headers |}.

Definition closing_page : Response :=
  mk_response 200 (mk_page "5" "AoJ3" "AoJ3" []) no_headers.

Definition opening_page : Response :=
  mk_response 200
    (mk_page "5" "*" "AoJ1" [row "Indexing"; row "Retrieval"])
    (mk_headers "20000" "19975" "1700000000").

Definition four_pages : Env :=
  scripted [opening_page; answer second_page; answer third_page; closing_page].

(** A first page without the reset header, and one whose reset header is
    not a number. *)
Definition page_without_reset : Response :=
  mk_response 200
    (mk_page "3" "*" "AoJ1" [row "Indexing"; row "Retrieval"])
    {| X_RateLimit_Limit := Some "20000";
       X_RateLimit_Remaining := Some "19975";
       X_RateLimit_Reset := None |}.

(** The arguments of the rate-limit [print] of the first-page branch,
    evaluated from left to right; [None] when one of them raises. *)
Definition rate_report (E : Env) (h : Headers) : option (list printable) :=
  match X_RateLimit_Limit h, X_RateLimit_Remaining h, X_RateLimit_Reset h with
  | Some limit, Some remaining, Some reset =>
      match PyText.int reset with
      | Some ts =>
          if localtime_ok E ts
          then Some [PStr "Limit:"; PStr limit; PStr (nl +:+ "Remaining:");
                     PStr remaining; PStr (nl +:+ "Resets on:"); PDatetime ts]
          else None
      | None => None
      end
  | _, _, _ => None
  end.

(** A provider that answers once and then not at all. *)
Definition one_page_then_silence : Env := scripted [first_page].

(** ** The cells around the loop *)

(** The example search: [full_url = create_url(search_string)] and
    [r_json, r_headers = connect_to_endpoint(full_url)], a call that omits
    [params] and [next_] and so uses the shared default dictionary and the
    default cursor [*]. *)
Definition example_search_cell (E : Env) : M (SearchResults * Headers) :=
  q <- gets search_string;
  full_url <- Search.create_url q;
  Search.connect_to_endpoint E full_url default_params "*".

(** [df = pd.DataFrame(r_json['entry'])]. *)
Definition dataframe_cell (r_json : SearchResults) : M unit :=
  rows <- getitem "entry" (entry r_json);
  modify (set_df (pd_DataFrame rows)).

(** The single-DOI cells of the retrieval part: [full_url = create_url(doi)],
    [print(full_url)], the call, and the print of the rate limits. *)
Definition retrieve_doi_cells (E : Env) (doi : string) : M (json * Headers) :=
  full_url <- Retrieval.create_url doi;
  print [PStr full_url];;
  '(r_json, r_headers) <- Retrieval.connect_to_endpoint E full_url;
  limit <-
    header_getitem "X-RateLimit-Limit" (X_RateLimit_Limit r_headers);
  remaining <-
    header_getitem "X-RateLimit-Remaining" (X_RateLimit_Remaining r_headers);
  reset <-
    header_getitem "X-RateLimit-Reset" (X_RateLimit_Reset r_headers);
  reset_epoch <- int reset;
  resets_on <- fromtimestamp E reset_epoch;
  print [PStr "Limit:"; PStr limit; PStr (nl +:+ "Remaining:");
         PStr remaining; PStr (nl +:+ "Resets on:"); PDatetime resets_on];;
  ret (r_json, r_headers).

(** A first page over quota (100 results, 50 calls left) that carries no
    reset header, and the provider that serves it. *)
Definition over_quota_page_without_reset : Response :=
  mk_response 200
    (mk_page "100" "*" "AoJ1" [row "Indexing"; row "Retrieval"])
    {| X_RateLimit_Limit := Some "20000";
       X_RateLimit_Remaining := Some "50";
       X_RateLimit_Reset := None |}.

Definition over_quota_without_reset : Env :=
  scripted [over_quota_page_without_reset].

(** The number of passes through the body that [while_flag] makes. *)
Fixpoint passes_made (E : Env) (fuel : nat) (w : World) : nat :=
  if flag w then
    match fuel with
    | O => 0%nat
    | S fuel' =>
        match loop_body E w with
        | (Ok Next, w') => S (passes_made E fuel' w')
        | _ => 1%nat
        end
    end
  else 0%nat.

(** * Properties *)

(** ** Text *)

Section Occurrences.
Import PyText.

Lemma append_empty_r (s : string) : s +:+ "" = s.
Proof. induction s as [|c s IH]; simpl; [reflexivity | now rewrite IH]. Qed.

Lemma append_assoc (a b c : string) : (a +:+ b) +:+ c = a +:+ (b +:+ c).
Proof. induction a as [|x a IH]; simpl; [reflexivity | now rewrite IH]. Qed.

Lemma starts_with_refl (pat rest : string) : starts_with pat (pat +:+ rest) = true.
Proof.
  induction pat as [|c pat IH]; simpl; [reflexivity |].
  now rewrite Ascii.eqb_refl, IH.
Qed.

Lemma occurrences_starts_with (pat s : string) :
  starts_with pat s = true -> (1 <= occurrences pat s)%nat.
Proof.
  destruct s as [|c s]; simpl.
  - destruct pat; simpl; [lia | discriminate].
  - intros ->. lia.
Qed.

Lemma occurrences_drop_char (pat : string) (c : ascii) (s : string) :
  (occurrences pat s <= occurrences pat (String c s))%nat.
Proof. simpl. lia. Qed.

Lemma occurrences_drop_prefix (pat a s : string) :
  (occurrences pat s <= occurrences pat (a +:+ s))%nat.
Proof.
  induction a as [|c a IH]; simpl; [lia |].
  change (String.append a s) with (a +:+ s). lia.
Qed.

(** A string that is put together from [a], [pat] and [b] contains [pat]. *)
Lemma contains_infix (pat a b : string) :
  contains pat (a +:+ pat +:+ b) = true.
Proof.
  unfold contains.
  pose proof (occurrences_drop_prefix pat a (pat +:+ b)).
  pose proof (occurrences_starts_with pat (pat +:+ b) (starts_with_refl pat b)).
  destruct (occurrences pat (a +:+ pat +:+ b)) eqn:E; [lia | reflexivity].
Qed.

(** A character that the pattern lacks stops every match that reaches it. *)
Lemma starts_with_stop (c : ascii) (b : string) (pat' : string) :
  forall (p : ascii) (a : string),
    has_char c (String p pat') = false ->
    starts_with (String p pat') (a +:+ String c b)
    = starts_with (String p pat') a.
Proof.
  induction pat' as [|p' pat' IH]; intros p a Hc; simpl in Hc;
    apply orb_false_elim in Hc as [Hp Hrest].
  - destruct a as [|x a]; simpl.
    + rewrite Ascii.eqb_sym, Hp. reflexivity.
    + reflexivity.
  - destruct a as [|x a].
    + simpl. rewrite (Ascii.eqb_sym p c), Hp. reflexivity.
    + change (starts_with (String p (String p' pat')) (String x a +:+ String c b))
        with (Ascii.eqb p x && starts_with (String p' pat') (a +:+ String c b)).
      rewrite (IH p' a Hrest). reflexivity.
Qed.

(** Occurrences do not cross a character that the pattern lacks. *)
Lemma occurrences_split (c : ascii) (p : ascii) (pat' a b : string) :
  has_char c (String p pat') = false ->
  occurrences (String p pat') (a +:+ String c b)
  = (occurrences (String p pat') a + occurrences (String p pat') b)%nat.
Proof.
  intros Hc. induction a as [|x a IH].
  - simpl in Hc. apply orb_false_elim in Hc as [Hp _].
    simpl. rewrite (Ascii.eqb_sym p c), Hp. reflexivity.
  - change (occurrences (String p pat') (String x a +:+ String c b))
      with ((if starts_with (String p pat') (String x a +:+ String c b)
             then 1 else 0)
            + occurrences (String p pat') (a +:+ String c b))%nat.
    rewrite (starts_with_stop c b pat' p (String x a) Hc), IH.
    simpl. lia.
Qed.

(** Dropping the first character of a pattern cannot lose occurrences. *)
Lemma occurrences_shorter_pattern (c q : ascii) (pat' s : string) :
  (occurrences (String c (String q pat')) s
   <= occurrences (String q pat') s)%nat.
Proof.
  assert (H : forall s,
    (occurrences (String c (String q pat')) s
     <= occurrences (String q pat') (match s with
                                     | EmptyString => EmptyString
                                     | String _ s' => s'
                                     end))%nat).
  { clear s. induction s as [|x s IH]; [simpl; lia |].
    change (occurrences (String c (String q pat')) (String x s))
      with ((if Ascii.eqb c x && starts_with (String q pat') s then 1 else 0)
            + occurrences (String c (String q pat')) s)%nat.
    destruct s as [|y s]; [simpl; rewrite andb_false_r; lia |].
    cbv beta match in IH |- *.
    change (occurrences (String q pat') (String y s))
      with ((if starts_with (String q pat') (String y s) then 1 else 0)
            + occurrences (String q pat') s)%nat.
    destruct (Ascii.eqb c x);
      destruct (starts_with (String q pat') (String y s)); cbn [andb]; lia. }
  specialize (H s). destruct s as [|x s]; [exact H |].
  pose proof (occurrences_drop_char (String q pat') x s). lia.
Qed.

Lemma starts_with_longer_pattern (a b : string) :
  forall s, starts_with (a +:+ b) s = true -> starts_with a s = true.
Proof.
  induction a as [|x a IH]; intros s; [reflexivity |].
  destruct s as [|y s]; simpl; [discriminate |].
  intros H. apply andb_prop in H as [-> H]. now rewrite (IH s H).
Qed.

(** Extending a pattern to the right cannot add occurrences. *)
Lemma occurrences_longer_pattern (a b s : string) :
  (occurrences (a +:+ b) s <= occurrences a s)%nat.
Proof.
  induction s as [|y s IH].
  - simpl. pose proof (starts_with_longer_pattern a b "") as H.
    destruct (starts_with (a +:+ b) ""); [rewrite H by reflexivity |]; lia.
  - pose proof (starts_with_longer_pattern a b (String y s)) as H.
    cbn [occurrences].
    destruct (starts_with (a +:+ b) (String y s));
      [rewrite H by reflexivity |]; lia.
Qed.

(** Decimal numerals carry no letters. *)
Lemma occurrences_AND_uint (d : Decimal.uint) :
  occurrences "AND" (NilEmpty.string_of_uint d) = 0%nat.
Proof. induction d; simpl; auto. Qed.

Lemma occurrences_AND_str_of_int (n : Z) :
  occurrences "AND" (str_of_int n) = 0%nat.
Proof.
  unfold str_of_int, NilZero.string_of_int, NilZero.string_of_uint.
  destruct (Z.to_int n) as [d|d]; destruct d; simpl; auto;
    apply occurrences_AND_uint.
Qed.

End Occurrences.

(** ** QueryBuilder *)

Section QueryBuilderFacts.
Import PyText QueryBuilder.

Lemma truthy_is_default (v : value) : truthy v = negb (is_default v).
Proof. destruct v; reflexivity. Qed.

Lemma is_default_iff (v : value) :
  is_default v = true <-> v = VStr "" \/ v = VInt 0.
Proof.
  destruct v as [s|n]; simpl; split.
  - intros H. apply String.eqb_eq in H. left. now subst.
  - intros [H|H]; [injection H as -> | discriminate]. reflexivity.
  - intros H. apply Z.eqb_eq in H. right. now subst.
  - intros [H|H]; [discriminate | injection H as ->]. reflexivity.
Qed.

(** What one pass of the loop does to the string built so far. *)
Lemma search_builder_body_cases (acc k : string) (v : value) :
  search_builder_body acc (k, v)
  = if is_default v then acc else add_separator acc +:+ term (k, v).
Proof.
  unfold search_builder_body, term. rewrite truthy_is_default.
  destruct (is_default v); simpl negb; rewrite ?andb_false_r, ?andb_true_r;
    [reflexivity |].
  destruct (String.eqb k "start_year"); [reflexivity |].
  destruct (String.eqb k "end_year"); reflexivity.
Qed.

Lemma append_nonempty (a b : string) :
  String.eqb b "" = false -> String.eqb (a +:+ b) "" = false.
Proof. destruct a; simpl; [tauto | reflexivity]. Qed.

Lemma term_nonempty (kv : string * value) : String.eqb (term kv) "" = false.
Proof.
  destruct kv as [k v]. unfold term.
  destruct (String.eqb k "start_year"); [reflexivity |].
  destruct (String.eqb k "end_year"); [reflexivity |].
  apply append_nonempty. reflexivity.
Qed.

(** The string after the remaining fields, from any string built so far. *)
Lemma fold_search_builder_body (ps : list (string * value)) :
  forall acc,
    fold_left search_builder_body ps acc
    = match map term (non_default_fields ps) with
      | [] => acc
      | ts => add_separator acc +:+ String.concat " AND " ts
      end.
Proof.
  induction ps as [|[k v] ps IH]; intros acc; [reflexivity |].
  cbn [fold_left]. rewrite IH, search_builder_body_cases.
  unfold non_default_fields. cbn [List.filter snd].
  fold (non_default_fields ps).
  destruct (is_default v); cbn [negb]; [reflexivity |].
  cbn [map].
  destruct (map term (non_default_fields ps)) as [|t ts]; [reflexivity |].
  unfold add_separator at 1.
  rewrite (append_nonempty (add_separator acc) _ (term_nonempty (k, v))).
  cbn [negb]. change (String.concat " AND " (term (k, v) :: t :: ts))
    with (term (k, v) +:+ " AND " +:+ String.concat " AND " (t :: ts)).
  now rewrite !append_assoc.
Qed.

(** [search_builder] builds the specification's conjunction. *)
Lemma search_builder_spec_query (ps : list (string * value)) :
  search_builder ps = spec_query ps.
Proof.
  unfold search_builder, spec_query. rewrite fold_search_builder_body.
  destruct (map term (non_default_fields ps)); reflexivity.
Qed.

Lemma contains_false (pat s : string) :
  contains pat s = false <-> occurrences pat s = 0%nat.
Proof.
  unfold contains. destruct (occurrences pat s); simpl; split;
    congruence.
Qed.

Lemma occurrences_AND_term (kv : string * value) :
  and_free kv = true -> occurrences "AND" (term kv) = 0%nat.
Proof.
  destruct kv as [k v]. unfold and_free. cbn [fst snd]. intros H.
  apply andb_prop in H as [Hk Hv].
  apply negb_true_iff, contains_false in Hk, Hv.
  unfold term.
  destruct (String.eqb k "start_year");
    [| destruct (String.eqb k "end_year")].
  - change ("PUBYEAR > " +:+ fmt v) with ("PUBYEAR >" +:+ String " " (fmt v)).
    rewrite occurrences_split by reflexivity. now rewrite Hv.
  - change ("PUBYEAR < " +:+ fmt v) with ("PUBYEAR <" +:+ String " " (fmt v)).
    rewrite occurrences_split by reflexivity. now rewrite Hv.
  - change (k +:+ "(" +:+ fmt v +:+ ")")
      with (k +:+ String "(" (fmt v +:+ String ")" "")).
    rewrite !occurrences_split by reflexivity. rewrite Hk, Hv. reflexivity.
Qed.

(** In a conjunction of terms without AND, the word occurs once per
    separator. *)
Lemma occurrences_AND_concat (ts : list string) :
  Forall (fun t => occurrences "AND" t = 0%nat) ts ->
  occurrences "AND" (String.concat " AND " ts) = (length ts - 1)%nat.
Proof.
  induction 1 as [|t ts Ht Hts IH]; [reflexivity |].
  destruct ts as [|t' ts]; [simpl; now rewrite Ht |].
  change (String.concat " AND " (t :: t' :: ts))
    with (t +:+ String " " ("AND" +:+ String " " (String.concat " AND " (t' :: ts)))).
  rewrite !occurrences_split by reflexivity.
  rewrite Ht, IH. simpl. lia.
Qed.

(** Every separator of a conjunction is an occurrence of [" AND "]. *)
Lemma occurrences_separator_concat (ts : list string) :
  (length ts - 1 <= occurrences " AND " (String.concat " AND " ts))%nat.
Proof.
  induction ts as [|t ts IH]; [simpl; lia |].
  destruct ts as [|t' ts]; [simpl; lia |].
  change (String.concat " AND " (t :: t' :: ts))
    with (t +:+ " AND " +:+ String.concat " AND " (t' :: ts)).
  pose proof (occurrences_drop_prefix " AND " t
                (" AND " +:+ String.concat " AND " (t' :: ts))) as H1.
  pose proof (occurrences_drop_prefix " AND " "AND "
                (String.concat " AND " (t' :: ts))) as H2.
  change (occurrences " AND " (" AND " +:+ String.concat " AND " (t' :: ts)))
    with (1 + occurrences " AND " ("AND " +:+ String.concat " AND " (t' :: ts)))%nat
    in H1.
  cbn [length] in *. lia.
Qed.

Lemma occurrences_separator_spec_query (ps : list (string * value)) :
  forallb and_free (non_default_fields ps) = true ->
  occurrences " AND " (spec_query ps)
  = (length (non_default_fields ps) - 1)%nat.
Proof.
  intros H. unfold spec_query.
  pose proof (occurrences_separator_concat (map term (non_default_fields ps))) as Hlo.
  pose proof (occurrences_shorter_pattern " " "A" "ND "
                (String.concat " AND " (map term (non_default_fields ps)))) as Hmid.
  pose proof (occurrences_longer_pattern "AND" " "
                (String.concat " AND " (map term (non_default_fields ps)))) as Hcut.
  assert (Hfree : Forall (fun t => occurrences "AND" t = 0%nat)
                    (map term (non_default_fields ps))).
  { apply Forall_map, List.Forall_forall. intros kv Hin.
    apply occurrences_AND_term.
    rewrite forallb_forall in H. now apply H. }
  rewrite (occurrences_AND_concat _ Hfree) in Hcut.
  change ("AND" +:+ " ") with "AND " in Hcut.
  rewrite length_map in *. lia.
Qed.

End QueryBuilderFacts.

Section QueryBuilderClaims.
Import PyText QueryBuilder.

Example search_builder_first_cell :
  search_builder
    [("ISSN", VStr ""); ("AUTHOR-NAME", VStr ""); ("KEY", VStr "");
     ("PUBLISHER", VStr ""); ("EXACTSRCTITLE", VStr "libraries");
     ("AFFIL", VStr ""); ("TITLE", VStr ""); ("OPENACCESS", VStr "1");
     ("start_year", VInt 2015); ("end_year", VInt 0)]
  = "EXACTSRCTITLE(libraries) AND OPENACCESS(1) AND PUBYEAR > 2015".
Proof. reflexivity. Qed.

Example search_builder_second_cell :
  search_builder jasist_criteria
  = "ISSN(23301643) AND PUBYEAR > 2013 AND PUBYEAR < 2018".
Proof. reflexivity. Qed.

Example int_examples :
  PyText.int " 100 " = Some 100 /\ PyText.int "-1_000" = Some (-1000)
  /\ PyText.int "" = None /\ PyText.int "1__0" = None
  /\ PyText.int "12a" = None /\ PyText.int "007" = Some 7
  /\ PyText.int "+" = None.
Proof. repeat split; reflexivity. Qed.

(** C3, as the code has it.  The query is the terms of the fields that
    carry a value, in dictionary order, with [" AND "] between consecutive
    terms and nowhere else: it is empty when no field carries a value, and
    it is the single term ([F(v)], or [PUBYEAR > v] / [PUBYEAR < v] for
    the two year fields) when one field does.  When no such field has the
    word AND in its name or in its rendered value, [" AND "] occurs
    exactly N-1 times for N fields. *)
Theorem search_builder_conjunction (ps : list (string * value)) :
  search_builder ps
  = String.concat " AND " (map term (non_default_fields ps))
  /\ (non_default_fields ps = [] -> search_builder ps = "")
  /\ (forall k v,
        non_default_fields ps = [(k, v)] ->
        search_builder ps
        = if String.eqb k "start_year" then "PUBYEAR > " +:+ fmt v
          else if String.eqb k "end_year" then "PUBYEAR < " +:+ fmt v
          else k +:+ "(" +:+ fmt v +:+ ")")
  /\ (forallb and_free (non_default_fields ps) = true ->
      occurrences " AND " (search_builder ps)
      = (length (non_default_fields ps) - 1)%nat).
Proof.
  rewrite search_builder_spec_query. unfold spec_query.
  repeat split.
  - now intros ->.
  - now intros k v ->.
  - apply occurrences_separator_spec_query.
Qed.

Lemma search_builder_conjunction_witness :
  forallb and_free (non_default_fields jasist_criteria) = true
  /\ occurrences " AND " (search_builder jasist_criteria) = 2%nat.
Proof.
  split; [reflexivity |].
  exact (proj2 (proj2 (proj2 (search_builder_conjunction jasist_criteria)))
           eq_refl).
Defined.

(** C3 fails as stated: a title search for [cat AND dog], the notebook's
    own example of a value, is a single field and yet the query contains
    [" AND "]. *)
Lemma search_builder_AND_inside_value :
  non_default_fields [("TITLE", VStr "cat AND dog")]
    = [("TITLE", VStr "cat AND dog")]
  /\ search_builder [("TITLE", VStr "cat AND dog")] = "TITLE(cat AND dog)"
  /\ occurrences " AND " (search_builder [("TITLE", VStr "cat AND dog")])
     <> (1 - 1)%nat.
Proof. repeat split. vm_compute. discriminate. Qed.

(** C5.  A pass of the loop leaves the query untouched exactly when the
    field's value is the empty string or zero, and otherwise appends the
    field's term; so the query is the conjunction of the terms of exactly
    the fields whose value is neither. *)
Theorem search_builder_omits_defaults (ps : list (string * value)) :
  (forall v, is_default v = true <-> v = VStr "" \/ v = VInt 0)
  /\ (forall acc k v,
        search_builder_body acc (k, v)
        = if is_default v then acc else add_separator acc +:+ term (k, v))
  /\ search_builder ps
     = String.concat " AND "
         (map term (List.filter (fun kv => negb (is_default (snd kv))) ps))
  /\ (forall kv,
        In kv (non_default_fields ps)
        <-> In kv ps /\ snd kv <> VStr "" /\ snd kv <> VInt 0).
Proof.
  split; [exact is_default_iff |].
  split; [exact search_builder_body_cases |].
  split; [apply search_builder_spec_query |].
  intros kv. unfold non_default_fields. rewrite filter_In.
  pose proof (is_default_iff (snd kv)) as Hd.
  destruct (is_default (snd kv)); cbn [negb]; split.
  - intros [_ H]. discriminate.
  - intros (_ & H1 & H2). destruct (proj1 Hd eq_refl); contradiction.
  - intros [Hin _]. repeat split; [exact Hin | |];
      intros H; [assert (false = true) by (apply Hd; now left)
                | assert (false = true) by (apply Hd; now right)];
      discriminate.
  - intros [Hin _]. split; [exact Hin | reflexivity].
Qed.

End QueryBuilderClaims.

(** ** RequestFormatter *)

Section RequestFormatterClaims.
Import PyText.

Lemma search_create_url_value (w : World) (q : string) :
  Search.create_url q w
  = (Ok ("https://api.elsevier.com/content/search/scopus?query="
           +:+ q +:+ "&apiKey=" +:+ api_key w), w).
Proof.
  unfold Search.create_url, bind, gets, format, ret, Search.url_template.
  simpl. now rewrite append_empty_r.
Qed.

Lemma retrieval_create_url_value (w : World) (doi : string) :
  Retrieval.create_url doi w
  = (Ok ("https://api.elsevier.com/content/abstract/doi/"
           +:+ doi +:+ "?&apiKey=" +:+ api_key w), w).
Proof.
  unfold Retrieval.create_url, bind, gets, format, ret,
    Retrieval.url_template.
  simpl. now rewrite append_empty_r.
Qed.

(** A value put last in a string is contained in it. *)
Lemma contains_suffix (pat a : string) : contains pat (a +:+ pat) = true.
Proof.
  pose proof (contains_infix pat a "") as H.
  now rewrite append_empty_r in H.
Qed.

(** C6, as the code has it.  Both variants of [create_url] return the
    template with the query (or the DOI) and the key put in place of the
    two replacement fields: the URL contains both values verbatim, and
    the text of a replacement field occurs in it only where the query,
    the DOI or the key itself contains that text. *)
Theorem create_url_substitutes (w : World) (q doi : string) :
  (exists url,
      Search.create_url q w = (Ok url, w)
      /\ url = "https://api.elsevier.com/content/search/scopus?query="
                 +:+ q +:+ "&apiKey=" +:+ api_key w
      /\ contains q url = true
      /\ contains (api_key w) url = true
      /\ occurrences "{query}" url
         = (occurrences "{query}" q + occurrences "{query}" (api_key w))%nat
      /\ occurrences "{api_key}" url
         = (occurrences "{api_key}" q + occurrences "{api_key}" (api_key w))%nat)
  /\ (exists url,
      Retrieval.create_url doi w = (Ok url, w)
      /\ url = "https://api.elsevier.com/content/abstract/doi/"
                 +:+ doi +:+ "?&apiKey=" +:+ api_key w
      /\ contains doi url = true
      /\ contains (api_key w) url = true
      /\ occurrences "{doi}" url
         = (occurrences "{doi}" doi + occurrences "{doi}" (api_key w))%nat
      /\ occurrences "{api_key}" url
         = (occurrences "{api_key}" doi + occurrences "{api_key}" (api_key w))%nat).
Proof.
  split; eexists; (split; [first [apply search_create_url_value
                                 | apply retrieval_create_url_value] |]);
    (split; [reflexivity |]).
  - split; [apply contains_infix |].
    split; [rewrite <- !append_assoc; apply contains_suffix |].
    change ("https://api.elsevier.com/content/search/scopus?query="
              +:+ q +:+ "&apiKey=" +:+ api_key w)
      with ("https://api.elsevier.com/content/search/scopus?query"
              +:+ String "=" (q +:+ String "&" ("apiKey" +:+ String "=" (api_key w)))).
    split; rewrite !occurrences_split by reflexivity; simpl; lia.
  - split; [apply contains_infix |].
    split; [rewrite <- !append_assoc; apply contains_suffix |].
    change ("https://api.elsevier.com/content/abstract/doi/"
              +:+ doi +:+ "?&apiKey=" +:+ api_key w)
      with ("https://api.elsevier.com/content/abstract/doi"
              +:+ String "/" (doi +:+ String "?" ("&apiKey" +:+ String "=" (api_key w)))).
    split; rewrite !occurrences_split by reflexivity; simpl; lia.
Qed.

(** C6 fails as stated: a query that itself reads [{query}] is put into
    the URL as it is, so the URL contains that text. *)
Lemma create_url_keeps_braces_of_query :
  Search.create_url "{query}" (fresh_notebook "7f59af" "")
  = (Ok "https://api.elsevier.com/content/search/scopus?query={query}&apiKey=7f59af",
     fresh_notebook "7f59af" "")
  /\ contains "{query}"
       "https://api.elsevier.com/content/search/scopus?query={query}&apiKey=7f59af"
     = true.
Proof. split; reflexivity. Qed.

End RequestFormatterClaims.

(** ** Reasoning about cells: weakest preconditions *)

Section WeakestPreconditions.

Lemma wp_ret {A} (a : A) Q w : Q (Ok a) w -> wp (ret a) Q w.
Proof. exact (fun H => H). Qed.

Lemma wp_raise {A} (e : exn) (Q : result A -> World -> Prop) w :
  Q (Raise e) w -> wp (raise e) Q w.
Proof. exact (fun H => H). Qed.

Lemma wp_bind {A B} (m : M A) (k : A -> M B) Q w :
  wp m (fun r w1 => match r with
                    | Ok a => wp (k a) Q w1
                    | Raise e => Q (Raise e) w1
                    end) w ->
  wp (bind m k) Q w.
Proof.
  unfold wp, bind. destruct (m w) as [[a|e] w1]; simpl; auto.
Qed.

Lemma wp_gets {A} (f : World -> A) Q w : Q (Ok (f w)) w -> wp (gets f) Q w.
Proof. exact (fun H => H). Qed.

Lemma wp_modify (f : World -> World) Q w : Q (Ok tt) (f w) -> wp (modify f) Q w.
Proof. exact (fun H => H). Qed.

Lemma wp_print args Q w : Q (Ok tt) (emit (EvPrint args) w) -> wp (print args) Q w.
Proof. exact (fun H => H). Qed.

Lemma wp_sleep s Q w : Q (Ok tt) (emit (EvSleep s) w) -> wp (sleep s) Q w.
Proof. exact (fun H => H). Qed.

Lemma wp_getitem {A} key (field : option A) Q w :
  match field with
  | Some v => Q (Ok v) w
  | None => Q (Raise (KeyError key)) w
  end -> wp (getitem key field) Q w.
Proof. unfold wp, getitem. destruct field; auto. Qed.

Lemma wp_int s Q w :
  match PyText.int s with
  | Some n => Q (Ok n) w
  | None => Q (Raise ValueError) w
  end -> wp (int s) Q w.
Proof. unfold wp, int. destruct (PyText.int s); auto. Qed.

Lemma wp_header_getitem key (field : option string) Q w :
  match field with
  | Some v => Q (Ok v) w
  | None => Q (Raise (KeyError (PyText.lower key))) w
  end -> wp (header_getitem key field) Q w.
Proof. unfold wp, header_getitem. destruct field; auto. Qed.

Lemma wp_fromtimestamp E t Q w :
  (if localtime_ok E t then Q (Ok t) w
   else match localtime_error E t with
        | OutOfTimeT => Q (Raise OverflowError) w
        | YearOutOfRange => Q (Raise ValueError) w
        | LocaltimeFailed => Q (Raise OSError) w
        end) ->
  wp (fromtimestamp E t) Q w.
Proof.
  unfold wp, fromtimestamp.
  destruct (localtime_ok E t); [auto |].
  destruct (localtime_error E t); auto.
Qed.

Lemma wp_read_df Q w :
  match df w with
  | Some d => Q (Ok d) w
  | None => Q (Raise (NameError "df")) w
  end -> wp read_df Q w.
Proof. unfold wp, read_df. destruct (df w); auto. Qed.

Lemma wp_requests_get E r Q w :
  match server E (calls w) r with
  | Some resp => Q (Ok resp) (count_call (emit (EvGet r) w))
  | None => Q (Raise RequestException) (count_call (emit (EvGet r) w))
  end -> wp (requests_get E r) Q w.
Proof. unfold wp, requests_get. destruct (server E (calls w) r); auto. Qed.

Lemma wp_raise_for_status r Q w :
  (if (400 <=? status_code r)%Z && (status_code r <? 600)%Z
   then Q (Raise (HTTPError (status_code r))) w
   else Q (Ok tt) w) ->
  wp (raise_for_status r) Q w.
Proof.
  unfold wp, raise_for_status.
  destruct ((400 <=? status_code r)%Z && (status_code r <? 600)%Z); auto.
Qed.

Lemma wp_json_of r Q w :
  match body r with
  | Some d => Q (Ok d) w
  | None => Q (Raise JSONDecodeError) w
  end -> wp (json_of r) Q w.
Proof. unfold wp, json_of. destruct (body r); auto. Qed.

Lemma wp_search_create_url q Q w :
  Q (Ok ("https://api.elsevier.com/content/search/scopus?query="
           +:+ q +:+ "&apiKey=" +:+ api_key w)) w ->
  wp (Search.create_url q) Q w.
Proof. unfold wp. now rewrite search_create_url_value. Qed.

Lemma wp_retrieval_create_url doi Q w :
  Q (Ok ("https://api.elsevier.com/content/abstract/doi/"
           +:+ doi +:+ "?&apiKey=" +:+ api_key w)) w ->
  wp (Retrieval.create_url doi) Q w.
Proof. unfold wp. now rewrite retrieval_create_url_value. Qed.

End WeakestPreconditions.

(** One step of symbolic execution of a cell. *)
Ltac wp_step :=
  lazymatch goal with
  | |- wp (bind _ _) _ _ => apply wp_bind
  | |- wp (ret _) _ _ => apply wp_ret
  | |- wp (raise _) _ _ => apply wp_raise
  | |- wp (gets _) _ _ => apply wp_gets
  | |- wp (modify _) _ _ => apply wp_modify
  | |- wp (print _) _ _ => apply wp_print
  | |- wp (sleep _) _ _ => apply wp_sleep
  | |- wp (getitem _ _) _ _ => apply wp_getitem
  | |- wp (header_getitem _ _) _ _ => apply wp_header_getitem
  | |- wp (int _) _ _ => apply wp_int
  | |- wp (fromtimestamp _ _) _ _ => apply wp_fromtimestamp
  | |- wp read_df _ _ => apply wp_read_df
  | |- wp (requests_get _ _) _ _ => apply wp_requests_get
  | |- wp (raise_for_status _) _ _ => apply wp_raise_for_status
  | |- wp (json_of _) _ _ => apply wp_json_of
  | |- wp (Search.create_url _) _ _ => apply wp_search_create_url
  | |- wp (Retrieval.create_url _) _ _ => apply wp_retrieval_create_url
  | |- wp (if ?b then _ else _) _ _ => destruct b eqn:?
  | |- wp (match ?x with _ => _ end) _ _ => destruct x eqn:?
  | |- match ?x with _ => _ end => destruct x eqn:?
  end.

Ltac wp_run := repeat (wp_step; cbv beta).

Section LoopBody.
Variable E : Env.

(** What every pass through the body does, however it ends: it pauses,
    sends one request, the one built from the globals, and then only
    prints.  An [HTTPError] leaves [df] as it was. *)
Lemma loop_body_shape (w : World) :
  wp (loop_body E)
     (fun r w' =>
        (exists prints,
            trace w'
            = (trace w ++ EvSleep pacing :: EvGet (next_request w) :: prints)%list
            /\ forallb is_print prints = true)
        /\ calls w' = S (calls w)
        /\ (forall c, r = Raise (HTTPError c) ->
              df w' = df w
              /\ exists resp,
                  server E (calls w) (next_request w) = Some resp
                  /\ status_code resp = c
                  /\ (400 <= c < 600)%Z)) w.
Proof.
  unfold loop_body, Search.connect_to_endpoint.
  wp_run.
  all: cbn -[String.append pacing] in *.
  all: unfold next_request, search_url.
  all: (split; [eexists; split;
                  [rewrite <- ?app_assoc; cbn [app]; reflexivity | reflexivity]
               | split; [reflexivity |]]).
  all: intros status Hc; try discriminate.
  injection Hc as <-. split; [reflexivity |].
  eexists. split; [eassumption |]. split; [reflexivity |].
  apply andb_prop in Heqb as [H1 H2]. lia.
Qed.

End LoopBody.

Lemma wp_eq {A} (m : M A) (w : World) (x : result A * World) :
  wp m (fun r w' => (r, w') = x) w -> m w = x.
Proof. unfold wp. now destruct (m w). Qed.

(** Close the branches of a symbolic run that the hypotheses rule out. *)
Ltac wp_decide :=
  unfold after_first_page, after_last_page, after_request in *;
  unfold next_request, search_url in *;
  repeat (cbn -[String.append pacing PyText.int too_many_results] in *;
          simplify_eq);
  try congruence.

Section Paths.
Variable E : Env.

(** A pass that receives a well-formed first page. *)
Lemma loop_body_first_page (w : World)
    (total next_token limit remaining reset : string) (rows : list json)
    (t r ts : Z) :
  server E (calls w) (next_request w)
    = Some (mk_response 200 (mk_page total "*" next_token rows)
              (mk_headers limit remaining reset)) ->
  PyText.int total = Some t ->
  PyText.int remaining = Some r ->
  PyText.int reset = Some ts ->
  localtime_ok E ts = true ->
  loop_body E w
  = if (t >? r)%Z
    then (Ok Break,
          emit (EvPrint [PStr too_many_results])
            (after_first_page w t limit remaining ts rows))
    else (Ok Next,
          set_next_ next_token (after_first_page w t limit remaining ts rows)).
Proof.
  intros Hs Ht Hr Hts Hlt. apply wp_eq.
  unfold loop_body, Search.connect_to_endpoint. wp_run.
  all: wp_decide.
  all: match goal with H : (_ >? _)%Z = _ |- _ => now rewrite H end.
Qed.

(** A pass that receives a well-formed page whose cursor does not move,
    when [df] is bound. *)
Lemma loop_body_last_page (w : World) (total current : string)
    (rows : list json) (h : Headers) (t : Z) (d : DataFrame) :
  server E (calls w) (next_request w)
    = Some (mk_response 200 (mk_page total current current rows) h) ->
  PyText.int total = Some t ->
  current <> "*" ->
  df w = Some d ->
  loop_body E w = (Ok Next, after_last_page w d current).
Proof.
  intros Hs Ht Hc Hd. apply wp_eq.
  unfold loop_body, Search.connect_to_endpoint. wp_run.
  all: wp_decide.
  all: try match goal with H : String.eqb _ "*" = true |- _ =>
             apply String.eqb_eq in H; contradiction end.
  match goal with H : String.eqb ?x ?x = false |- _ =>
    rewrite String.eqb_refl in H; discriminate end.
Qed.

(** A pass whose request is answered with a 4xx or 5xx status. *)
Lemma loop_body_http_error (w : World) (resp : Response) :
  server E (calls w) (next_request w) = Some resp ->
  (400 <= status_code resp < 600)%Z ->
  loop_body E w = (Raise (HTTPError (status_code resp)), after_request w).
Proof.
  intros Hs Hc. apply wp_eq.
  unfold loop_body, Search.connect_to_endpoint. wp_run.
  all: wp_decide.
  all: match goal with H : andb _ _ = false |- _ =>
         apply andb_false_iff in H as [H|H]; lia end.
Qed.

End Paths.

(** ** PageFetcher *)

Section PageFetcherClaims.
Variable E : Env.

Lemma search_connect_shape (full_url : string) (params : loc)
    (next_token : string) (w : World) :
  wp (Search.connect_to_endpoint E full_url params next_token)
     (fun r w' =>
        let sent := {| req_url := full_url;
                       req_params := <["cursor" := next_token]> (dicts w params);
                       req_headers := ∅ |} in
        trace w' = (trace w ++ [EvGet sent])%list
        /\ calls w' = S (calls w)
        /\ dicts w' params = <["cursor" := next_token]> (dicts w params)
        /\ df w' = df w
        /\ (forall resp,
              server E (calls w) sent = Some resp ->
              (400 <= status_code resp < 600)%Z ->
              r = Raise (HTTPError (status_code resp)))
        /\ (forall resp page,
              server E (calls w) sent = Some resp ->
              ((status_code resp < 400)%Z \/ (600 <= status_code resp)%Z) ->
              body resp = Some page ->
              r = match search_results page with
                  | Some sr => Ok (sr, headers resp)
                  | None => Raise (KeyError "search-results")
                  end)) w.
Proof.
  unfold Search.connect_to_endpoint. wp_run.
  all: cbn -[String.append] in *; rewrite ?Nat.eqb_refl in *.
  all: repeat split; try reflexivity.
  all: intros; simplify_eq; try reflexivity.
  all: repeat match goal with
         | H : andb _ _ = true |- _ => apply andb_prop in H as [? ?]
         | H : andb _ _ = false |- _ => apply andb_false_iff in H as [?|?]
         end; try lia.
  all: match goal with
       | H : search_results _ = _ |- _ => now rewrite H
       end.
Qed.


(** C9.  Whatever dictionary the caller passes as [params] and whatever it
    holds under ['cursor'], the search variant of [connect_to_endpoint]
    first stores [next_] under that key, in the caller's own dictionary,
    and then sends exactly one request whose parameters are that
    dictionary: its ['cursor'] is [next_] and its other keys are the
    caller's. *)
Theorem connect_to_endpoint_sends_next (full_url : string) (params : loc)
    (next_token : string) (w : World) :
  let w' := snd (Search.connect_to_endpoint E full_url params next_token w) in
  exists sent,
    trace w' = (trace w ++ [EvGet sent])%list
    /\ req_url sent = full_url
    /\ req_params sent !! "cursor" = Some next_token
    /\ (forall k, k <> "cursor" -> req_params sent !! k = dicts w params !! k)
    /\ dicts w' params = req_params sent.
Proof.
  destruct (search_connect_shape full_url params next_token w)
    as (Ht & _ & Hd & _).
  eexists. split; [exact Ht |]. cbn [req_url req_params].
  split; [reflexivity |]. split; [apply lookup_insert_eq |].
  split; [| exact Hd].
  intros k Hk. now apply lookup_insert_ne.
Qed.

End PageFetcherClaims.

(** ** PaginationDriver *)

Section PacedHistories.

Lemma paced_from_weaken (t : list event) (b : bool) :
  paced_from false t = true -> paced_from b t = true.
Proof.
  destruct t as [|[s|r|a] t]; simpl; auto. discriminate.
Qed.

Lemma paced_from_app (t1 t2 : list event) :
  forall b,
    paced_from b t1 = true -> paced t2 = true ->
    paced_from b (t1 ++ t2)%list = true.
Proof.
  induction t1 as [|[s|r|a] t1 IH]; intros b H1 H2; simpl in *.
  - now apply paced_from_weaken.
  - now apply IH.
  - apply andb_prop in H1 as [-> H1]. simpl. now apply IH.
  - now apply IH.
Qed.

Lemma paced_prints (prints : list event) (b : bool) :
  forallb is_print prints = true -> paced_from b prints = true.
Proof.
  revert b. induction prints as [|[s|r|a] prints IH]; intros b H;
    simpl in *; try discriminate; auto.
Qed.

Lemma gets_of_app (t1 t2 : list event) :
  gets_of (t1 ++ t2)%list = (gets_of t1 ++ gets_of t2)%list.
Proof.
  induction t1 as [|[s|r|a] t1 IH]; simpl; [reflexivity | auto | | auto].
  now rewrite IH.
Qed.

(** The events of one pass form a paced history. *)
Lemma paced_pass (r : Request) (prints : list event) :
  forallb is_print prints = true ->
  paced (EvSleep pacing :: EvGet r :: prints) = true.
Proof.
  intros H. unfold paced. cbn [paced_from].
  change (Qeq_bool pacing pacing) with true. now apply paced_prints.
Qed.

End PacedHistories.

Section PaginationClaims.
Variable E : Env.

Lemma loop_body_events (w : World) :
  exists prints,
    trace (snd (loop_body E w))
    = (trace w ++ EvSleep pacing :: EvGet (next_request w) :: prints)%list
    /\ forallb is_print prints = true.
Proof. exact (proj1 (loop_body_shape E w)). Qed.

Lemma loop_body_calls (w : World) :
  calls (snd (loop_body E w)) = S (calls w).
Proof. exact (proj1 (proj2 (loop_body_shape E w))). Qed.

Lemma loop_body_http_error_inv (w w' : World) (c : Z) :
  loop_body E w = (Raise (HTTPError c), w') ->
  df w' = df w
  /\ exists resp,
      server E (calls w) (next_request w) = Some resp
      /\ status_code resp = c /\ (400 <= c < 600)%Z.
Proof.
  intros H. pose proof (proj2 (proj2 (loop_body_shape E w))) as G.
  cbv beta in G. rewrite H in G. now apply G.
Qed.

(** C8.  Every pass through the loop body begins with the pause of 0.12
    seconds and sends its request directly after it, whatever the state
    and however the pass ends; so in the history of a run of any length,
    every request comes directly after that pause. *)
Theorem pause_precedes_every_fetch (fuel : nat) (w : World) :
  (exists prints,
      trace (snd (loop_body E w))
      = (trace w ++ EvSleep pacing :: EvGet (next_request w) :: prints)%list
      /\ forallb is_print prints = true)
  /\ (exists added,
        trace (final_world (while_flag E fuel w)) = (trace w ++ added)%list
        /\ paced added = true).
Proof.
  split; [apply loop_body_events |].
  revert w. induction fuel as [|fuel IH]; intros w; cbn [while_flag].
  - exists []. rewrite app_nil_r. now destruct (flag w).
  - destruct (flag w); [| exists []; now rewrite app_nil_r].
    destruct (loop_body_events w) as (prints & Ht & Hp).
    destruct (loop_body E w) as [[[|]|e] w1]; cbn [snd] in Ht.
    + destruct (IH w1) as (added & Ha & Hpa).
      exists ((EvSleep pacing :: EvGet (next_request w) :: prints) ++ added)%list.
      split; [rewrite Ha, Ht; now rewrite <- app_assoc |].
      apply paced_from_app; [now apply paced_pass | exact Hpa].
    + eexists. split; [exact Ht | now apply paced_pass].
    + eexists. split; [exact Ht | now apply paced_pass].
Qed.

Lemma while_flag_http_error (fuel : nat) :
  forall w w' c,
    while_flag E fuel w = Error (HTTPError c) w' ->
    exists n w_n,
      passes E n w = Some w_n
      /\ loop_body E w_n = (Raise (HTTPError c), w')
      /\ df w' = df w_n.
Proof.
  induction fuel as [|fuel IH]; intros w w' c; cbn [while_flag];
    destruct (flag w) eqn:Hf; try discriminate.
  destruct (loop_body E w) as [[[|]|e] w1] eqn:Hb; try discriminate.
  - intros H. destruct (IH _ _ _ H) as (n & w_n & Hn & Hl & Hd).
    exists (S n), w_n. cbn [passes]. rewrite Hf, Hb. auto.
  - intros [= -> ->]. exists 0%nat, w. cbn [passes].
    split; [reflexivity |]. split; [exact Hb |].
    now apply (loop_body_http_error_inv w w' c).
Qed.

(** C10.  A pass whose request is answered with a 4xx or 5xx status
    raises the [HTTPError] with [df] as it was before the pass; and when
    a run ends in an [HTTPError], [df] is what the passes before the
    failing one had made of it. *)
Theorem http_error_keeps_dataframe :
  (forall w resp,
      server E (calls w) (next_request w) = Some resp ->
      (400 <= status_code resp < 600)%Z ->
      exists w',
        loop_body E w = (Raise (HTTPError (status_code resp)), w')
        /\ df w' = df w)
  /\ (forall fuel w c w',
        while_flag E fuel w = Error (HTTPError c) w' ->
        exists n w_n,
          passes E n w = Some w_n
          /\ loop_body E w_n = (Raise (HTTPError c), w')
          /\ df w' = df w_n).
Proof.
  split.
  - intros w resp Hs Hc. eexists.
    split; [now apply loop_body_http_error | reflexivity].
  - intros fuel w c w'. apply while_flag_http_error.
Qed.

(** C1, as the code has it.  When the first page ([@current] is [*])
    reports no more results than calls remain and the second page's
    cursor does not move ([@next] equals [@current], which is not [*]),
    the run ends after exactly two requests, and [df] holds the records
    of the first page only. *)
Theorem two_page_run (w : World) (fuel : nat)
    (total1 next1 limit remaining reset total2 current2 : string)
    (rows1 rows2 : list json) (h2 : Headers) (t1 r1 ts t2 : Z) :
  (forall req,
      server E (calls w) req
      = Some (mk_response 200 (mk_page total1 "*" next1 rows1)
                (mk_headers limit remaining reset))) ->
  PyText.int total1 = Some t1 ->
  PyText.int remaining = Some r1 ->
  PyText.int reset = Some ts ->
  localtime_ok E ts = true ->
  (t1 <= r1)%Z ->
  (forall req,
      server E (S (calls w)) req
      = Some (mk_response 200 (mk_page total2 current2 current2 rows2) h2)) ->
  PyText.int total2 = Some t2 ->
  current2 <> "*" ->
  (2 <= fuel)%nat ->
  exists w' second,
    pagination E fuel w = Done w'
    /\ gets_of (trace w')
       = (gets_of (trace w) ++ [next_request (start w); second])%list
    /\ req_params second !! "cursor" = Some next1
    /\ calls w' = (calls w + 2)%nat
    /\ df w' = Some (pd_DataFrame rows1)
    /\ len <$> df w' = Some (Z.of_nat (length rows1)).
Proof.
  intros H1 Ht1 Hr1 Hts Hlt Hle H2 Ht2 Hc Hfuel.
  destruct fuel as [|[|fuel]]; [lia | lia |].
  unfold pagination. fold (start w).
  change (while_flag E (S (S fuel)) (start w))
    with (match loop_body E (start w) with
          | (Ok Next, w') => while_flag E (S fuel) w'
          | (Ok Break, w') => QuotaExceeded w'
          | (Raise e, w') => Error e w'
          end).
  rewrite (loop_body_first_page E (start w) total1 next1 limit remaining reset
             rows1 t1 r1 ts (H1 _) Ht1 Hr1 Hts Hlt).
  destruct (Z.gtb_spec t1 r1) as [Hgt|_]; [lia |].
  set (w1 := set_next_ next1 (after_first_page (start w) t1 limit remaining ts rows1)).
  change (while_flag E (S fuel) w1)
    with (match loop_body E w1 with
          | (Ok Next, w') => while_flag E fuel w'
          | (Ok Break, w') => QuotaExceeded w'
          | (Raise e, w') => Error e w'
          end).
  rewrite (loop_body_last_page E w1 total2 current2 rows2 h2 t2 rows1
             (H2 _) Ht2 Hc eq_refl).
  exists (after_last_page w1 rows1 current2), (next_request w1).
  split; [destruct fuel; reflexivity |].
  split.
  { cbn -[String.append pacing next_request gets_of].
    rewrite !gets_of_app. cbn [gets_of].
    rewrite ?app_nil_r, <- ?app_assoc. reflexivity. }
  split; [apply lookup_insert_eq |].
  split; [cbn; lia |]. split; reflexivity.
Qed.

(** C2, as the code has it.  When the first page ([@current] is [*])
    reports more results than the [X-RateLimit-Remaining] header allows,
    and its response also carries the two other rate-limit headers that
    the branch prints before the guard ([X-RateLimit-Limit], and an
    [X-RateLimit-Reset] that is an integer epoch the platform can show),
    the run stops after exactly one request by the loop's [break]: the
    warning is printed last, no further request goes out, and [df] holds
    the records of that first page. *)
Theorem quota_guard_stops_run (w : World) (fuel : nat)
    (total next1 limit remaining reset : string) (rows : list json)
    (t r ts : Z) :
  (forall req,
      server E (calls w) req
      = Some (mk_response 200 (mk_page total "*" next1 rows)
                (mk_headers limit remaining reset))) ->
  PyText.int total = Some t ->
  PyText.int remaining = Some r ->
  PyText.int reset = Some ts ->
  localtime_ok E ts = true ->
  (t > r)%Z ->
  (1 <= fuel)%nat ->
  exists w',
    pagination E fuel w = QuotaExceeded w'
    /\ calls w' = (calls w + 1)%nat
    /\ df w' = Some rows
    /\ trace w'
       = (trace w
          ++ [EvSleep pacing; EvGet (next_request (start w));
              EvPrint [PStr "Collecting"; PInt t; PStr "results."];
              EvPrint [PStr "Limit:"; PStr limit; PStr (nl +:+ "Remaining:");
                       PStr remaining; PStr (nl +:+ "Resets on:");
                       PDatetime ts];
              EvPrint [PStr too_many_results]])%list.
Proof.
  intros H1 Ht Hr Hts Hlt Hgt Hfuel.
  destruct fuel as [|fuel]; [lia |].
  unfold pagination. fold (start w).
  change (while_flag E (S fuel) (start w))
    with (match loop_body E (start w) with
          | (Ok Next, w') => while_flag E fuel w'
          | (Ok Break, w') => QuotaExceeded w'
          | (Raise e, w') => Error e w'
          end).
  rewrite (loop_body_first_page E (start w) total next1 limit remaining reset
             rows t r ts (H1 _) Ht Hr Hts Hlt).
  destruct (Z.gtb_spec t r) as [_|Hngt]; [| lia].
  eexists. split; [reflexivity |].
  split; [cbn; lia |]. split; [reflexivity |].
  cbn -[String.append pacing too_many_results next_request].
  now rewrite <- !app_assoc.
Qed.




End PaginationClaims.

(** ** The claims on the mocked providers *)

Example issn_query :
  search_string issn_notebook = QueryBuilder.search_builder jasist_criteria.
Proof. reflexivity. Qed.

Lemma two_page_run_witness :
  exists w' second,
    pagination two_pages 2 issn_notebook = Done w'
    /\ gets_of (trace w')
       = (gets_of (trace issn_notebook)
          ++ [next_request (start issn_notebook); second])%list
    /\ req_params second !! "cursor" = Some "AoJ1"
    /\ calls w' = (calls issn_notebook + 2)%nat
    /\ df w' = Some (pd_DataFrame [row "Indexing"; row "Retrieval"])
    /\ len <$> df w' = Some 2%Z.
Proof.
  apply (two_page_run two_pages issn_notebook 2
           "3" "AoJ1" "20000" "19975" "1700000000" "3" "AoJ1"
           [row "Indexing"; row "Retrieval"] [row "Citation"]
           (mk_headers "20000" "19974" "1700000000")
           3 19975 1700000000 3).
  - intros req. reflexivity.
  - reflexivity.
  - reflexivity.
  - reflexivity.
  - reflexivity.
  - lia.
  - intros req. reflexivity.
  - reflexivity.
  - discriminate.
  - lia.
Defined.

(** C1 fails as stated: the second page of the mock carries one record,
    the run ends after two requests, and [df] has the two rows of the first
    page, not three. *)
Lemma two_page_run_drops_last_page :
  is_done (pagination two_pages 2 issn_notebook) = true
  /\ calls (final_world (pagination two_pages 2 issn_notebook)) = 2%nat
  /\ entry (mk_page "3" "*" "AoJ1" [row "Indexing"; row "Retrieval"])
     = Some [row "Indexing"; row "Retrieval"]
  /\ entry (mk_page "3" "AoJ1" "AoJ1" [row "Citation"]) = Some [row "Citation"]
  /\ df (final_world (pagination two_pages 2 issn_notebook))
     = Some [row "Indexing"; row "Retrieval"]
  /\ len [row "Indexing"; row "Retrieval"]
     <> (len [row "Indexing"; row "Retrieval"] + len [row "Citation"])%Z.
Proof. repeat split; try reflexivity. vm_compute. discriminate. Qed.

Lemma quota_guard_stops_run_witness :
  exists w',
    pagination over_quota 1 issn_notebook = QuotaExceeded w'
    /\ calls w' = (calls issn_notebook + 1)%nat
    /\ df w' = Some [row "Indexing"; row "Retrieval"]
    /\ trace w'
       = (trace issn_notebook
          ++ [EvSleep pacing; EvGet (next_request (start issn_notebook));
              EvPrint [PStr "Collecting"; PInt 100; PStr "results."];
              EvPrint [PStr "Limit:"; PStr "20000"; PStr (nl +:+ "Remaining:");
                       PStr "50"; PStr (nl +:+ "Resets on:");
                       PDatetime 1700000000];
              EvPrint [PStr too_many_results]])%list.
Proof.
  apply (quota_guard_stops_run over_quota issn_notebook 1
           "100" "AoJ1" "20000" "50" "1700000000"
           [row "Indexing"; row "Retrieval"] 100 50 1700000000).
  - intros req. reflexivity.
  - reflexivity.
  - reflexivity.
  - reflexivity.
  - reflexivity.
  - lia.
  - lia.
Defined.

(** C2 fails as stated: the first page of this mock reports 100 results
    with 50 calls remaining, but carries no [X-RateLimit-Reset] header; the
    print of the rate limits, which comes before the guard, raises
    [KeyError], so no warning is printed and [df] is never assigned. *)
Lemma quota_guard_needs_reset_header :
  at_current <$> cursor (mk_page "100" "*" "AoJ1" [row "Indexing"; row "Retrieval"])
    = Some (Some "*")
  /\ PyText.int "100" = Some 100%Z
  /\ X_RateLimit_Remaining (headers over_quota_page_without_reset) = Some "50"
  /\ PyText.int "50" = Some 50%Z
  /\ (100 > 50)%Z
  /\ pagination over_quota_without_reset 1 issn_notebook
     = Error (KeyError "x-ratelimit-reset")
         (final_world (pagination over_quota_without_reset 1 issn_notebook))
  /\ df (final_world (pagination over_quota_without_reset 1 issn_notebook))
     = None
  /\ trace (final_world (pagination over_quota_without_reset 1 issn_notebook))
     = [EvSleep pacing; EvGet (next_request (start issn_notebook));
        EvPrint [PStr "Collecting"; PInt 100; PStr "results."]].
Proof. repeat split; reflexivity. Qed.



Lemma http_error_keeps_dataframe_witness :
  (exists w',
      loop_body fails_second
        (snd (loop_body fails_second (start issn_notebook)))
      = (Raise (HTTPError 500), w')
      /\ df w' = Some [row "Indexing"; row "Retrieval"])
  /\ (exists n w_n,
        passes fails_second n (start issn_notebook) = Some w_n
        /\ loop_body fails_second w_n
           = (Raise (HTTPError 500),
              final_world (while_flag fails_second 2 (start issn_notebook)))
        /\ df (final_world (while_flag fails_second 2 (start issn_notebook)))
           = df w_n).
Proof.
  split.
  - apply (proj1 (http_error_keeps_dataframe fails_second)
             (snd (loop_body fails_second (start issn_notebook)))
             server_error).
    + vm_compute. reflexivity.
    + simpl. lia.
  - apply (proj2 (http_error_keeps_dataframe fails_second)
             2%nat (start issn_notebook) 500).
    vm_compute. reflexivity.
Defined.

(** ** Runs of several pages *)

Section LongRuns.
Variable E : Env.

(** A pass that receives a well-formed page whose cursor moves, when [df]
    is bound: the headers of the page are not looked at. *)
Lemma loop_body_middle_page (w : World) (total current next_token : string)
    (rows : list json) (h : Headers) (t : Z) (d : DataFrame) :
  server E (calls w) (next_request w)
    = Some (mk_response 200 (mk_page total current next_token rows) h) ->
  PyText.int total = Some t ->
  current <> "*" ->
  next_token <> current ->
  df w = Some d ->
  loop_body E w = (Ok Next, after_middle_page w d rows next_token).
Proof.
  intros Hs Ht Hc Hn Hd. apply wp_eq.
  unfold loop_body, Search.connect_to_endpoint. wp_run.
  all: unfold after_middle_page in *; wp_decide.
  all: try match goal with H : String.eqb _ "*" = true |- _ =>
             apply String.eqb_eq in H; contradiction end.
  match goal with H : String.eqb _ _ = true |- _ =>
    apply String.eqb_eq in H; contradiction end.
Qed.

Lemma moving_inv (p : PageData) :
  moving p = true ->
  (exists t, PyText.int (pd_total p) = Some t)
  /\ pd_current p <> "*" /\ pd_next p <> pd_current p.
Proof.
  unfold moving, parses. intros H.
  apply andb_prop in H as [H Hn]. apply andb_prop in H as [Ht Hc].
  apply negb_true_iff, String.eqb_neq in Hn, Hc.
  destruct (PyText.int (pd_total p)) as [t|]; [| discriminate]. eauto.
Qed.

Lemma cursors_of_app (t1 t2 : list event) :
  cursors_of (t1 ++ t2)%list = (cursors_of t1 ++ cursors_of t2)%list.
Proof. unfold cursors_of. now rewrite gets_of_app, map_app. Qed.

Lemma cursors_of_after_request (w : World) :
  cursors_of (trace (after_request w))
  = (cursors_of (trace w) ++ [Some (next_ w)])%list.
Proof.
  unfold after_request, cursors_of.
  cbn -[String.append pacing next_request gets_of].
  rewrite !gets_of_app, !map_app. cbn [gets_of map].
  unfold next_request. cbn [req_params].
  now rewrite lookup_insert_eq, app_nil_r.
Qed.

(** From a world in which [df] is bound: moving pages, then a page whose
    cursor does not move. *)
Lemma while_flag_moving_pages (total current : string) (rows : list json)
    (h : Headers) (t : Z) :
  PyText.int total = Some t ->
  current <> "*" ->
  forall (ms : list PageData) (w : World) (d : DataFrame) (fuel : nat),
    flag w = true ->
    df w = Some d ->
    (forall i req,
        server E (calls w + i) req
        = nth_error (map answer ms
                     ++ [mk_response 200 (mk_page total current current rows) h]) i) ->
    forallb moving ms = true ->
    (length ms + 1 <= fuel)%nat ->
    exists w',
      while_flag E fuel w = Done w'
      /\ calls w' = (calls w + length ms + 1)%nat
      /\ df w' = Some (d ++ List.concat (map pd_rows ms))%list
      /\ cursors_of (trace w')
         = (cursors_of (trace w) ++ map Some (next_ w :: map pd_next ms))%list.
Proof.
  intros Ht Hc. induction ms as [|m ms IH]; intros w d fuel Hf Hd Hs Hm Hfuel.
  - destruct fuel as [|fuel]; [cbn in Hfuel; lia |].
    cbn [while_flag]. rewrite Hf.
    pose proof (Hs 0%nat (next_request w)) as H0.
    rewrite Nat.add_0_r in H0. cbn in H0.
    rewrite (loop_body_last_page E w total current rows h t d H0 Ht Hc Hd).
    exists (after_last_page w d current).
    split; [destruct fuel; reflexivity |].
    split; [cbn; lia |].
    split; [cbn; now rewrite app_nil_r |].
    unfold after_last_page.
    cbn -[String.append pacing after_request cursors_of].
    rewrite cursors_of_app, cursors_of_after_request.
    cbn. now rewrite app_nil_r.
  - destruct fuel as [|fuel]; [cbn in Hfuel; lia |].
    cbn [forallb] in Hm. apply andb_prop in Hm as [Hm1 Hm].
    destruct (moving_inv m Hm1) as ((tm & Htm) & Hcm & Hnm).
    cbn [while_flag]. rewrite Hf.
    pose proof (Hs 0%nat (next_request w)) as H0.
    rewrite Nat.add_0_r in H0. cbn in H0.
    rewrite (loop_body_middle_page w _ _ _ _ _ tm d H0 Htm Hcm Hnm Hd).
    set (w1 := after_middle_page w d (pd_rows m) (pd_next m)).
    destruct (IH w1 (d ++ pd_rows m)%list fuel) as (w' & Hrun & Hcalls & Hdf & Hcur).
    + exact Hf.
    + cbn. now rewrite app_nil_r.
    + intros i req. specialize (Hs (S i) req).
      replace (calls w1 + i)%nat with (calls w + S i)%nat by (cbn; lia).
      exact Hs.
    + exact Hm.
    + cbn in Hfuel. lia.
    + exists w'. split; [exact Hrun |].
      split; [rewrite Hcalls; cbn; lia |].
      split; [rewrite Hdf; cbn; now rewrite <- app_assoc |].
      rewrite Hcur. subst w1. unfold after_middle_page.
      cbn -[String.append pacing after_request cursors_of].
      rewrite cursors_of_after_request. cbn. now rewrite <- app_assoc.
Qed.

End LongRuns.

Section LongRunTheorems.
Variable E : Env.

Lemma cursors_of_prints (prints : list event) :
  forallb is_print prints = true -> cursors_of prints = [].
Proof.
  unfold cursors_of.
  induction prints as [|[s|r|a] prints IH]; simpl; intros H;
    try discriminate; auto.
Qed.

(** X1.  A run over a first page that passes the quota test, any number of
    pages whose cursor moves, and a page whose cursor does not move ends
    after one request per page; [df] is the rows of the first page followed
    by those of the moving pages, in order, and every request after the
    first carries the [@next] of the page before it.  The headers of the
    pages after the first play no part. *)
Theorem multi_page_run (w : World) (fuel : nat)
    (total1 next1 limit remaining reset : string) (rows1 : list json)
    (t1 r1 ts : Z) (ms : list PageData)
    (total_l current_l : string) (rows_l : list json) (h_l : Headers) (t_l : Z) :
  (forall i req,
      server E (calls w + i) req
      = nth_error
          (mk_response 200 (mk_page total1 "*" next1 rows1)
             (mk_headers limit remaining reset)
           :: map answer ms
           ++ [mk_response 200 (mk_page total_l current_l current_l rows_l) h_l])
          i) ->
  PyText.int total1 = Some t1 ->
  PyText.int remaining = Some r1 ->
  PyText.int reset = Some ts ->
  localtime_ok E ts = true ->
  (t1 <= r1)%Z ->
  forallb moving ms = true ->
  PyText.int total_l = Some t_l ->
  current_l <> "*" ->
  (length ms + 2 <= fuel)%nat ->
  exists w',
    pagination E fuel w = Done w'
    /\ calls w' = (calls w + length ms + 2)%nat
    /\ df w' = Some (rows1 ++ List.concat (map pd_rows ms))%list
    /\ cursors_of (trace w')
       = (cursors_of (trace w)
          ++ map Some ("*" :: next1 :: map pd_next ms))%list.
Proof.
  intros Hs Ht1 Hr1 Hts Hlt Hle Hm Htl Hcl Hfuel.
  destruct fuel as [|fuel]; [lia |].
  unfold pagination. fold (start w).
  change (while_flag E (S fuel) (start w))
    with (match loop_body E (start w) with
          | (Ok Next, w') => while_flag E fuel w'
          | (Ok Break, w') => QuotaExceeded w'
          | (Raise e, w') => Error e w'
          end).
  pose proof (Hs 0%nat (next_request (start w))) as H0.
  rewrite Nat.add_0_r in H0. cbn [nth_error] in H0.
  rewrite (loop_body_first_page E (start w) total1 next1 limit remaining reset
             rows1 t1 r1 ts H0 Ht1 Hr1 Hts Hlt).
  destruct (Z.gtb_spec t1 r1) as [Hgt|_]; [lia |].
  set (w1 := set_next_ next1 (after_first_page (start w) t1 limit remaining ts rows1)).
  destruct (while_flag_moving_pages E total_l current_l rows_l h_l t_l Htl Hcl
              ms w1 rows1 fuel) as (w' & Hrun & Hcalls & Hdf & Hcur).
  - reflexivity.
  - reflexivity.
  - intros i req. specialize (Hs (S i) req).
    replace (calls w1 + i)%nat with (calls w + S i)%nat by (cbn; lia).
    exact Hs.
  - exact Hm.
  - lia.
  - exists w'. split; [exact Hrun |].
    split; [rewrite Hcalls; cbn; lia |]. split; [exact Hdf |].
    rewrite Hcur. subst w1. unfold after_first_page.
    cbn -[String.append pacing after_request cursors_of].
    rewrite !cursors_of_app, cursors_of_after_request.
    cbn. now rewrite <- !app_assoc.
Qed.

(** X2.  The loop has no bound of its own: against a provider that answers
    every request with a first page that passes the quota test, the run is
    still going after any number of passes, one request each, and [df] is
    set anew to that page's rows by every pass. *)
Theorem first_page_forever (total next1 limit remaining reset : string)
    (rows : list json) (t r ts : Z) :
  (forall n req,
      server E n req
      = Some (mk_response 200 (mk_page total "*" next1 rows)
                (mk_headers limit remaining reset))) ->
  PyText.int total = Some t ->
  PyText.int remaining = Some r ->
  PyText.int reset = Some ts ->
  localtime_ok E ts = true ->
  (t <= r)%Z ->
  forall (fuel : nat) (w : World),
    flag w = true ->
    exists w',
      while_flag E fuel w = OutOfFuel w'
      /\ calls w' = (calls w + fuel)%nat
      /\ flag w' = true
      /\ (0 < fuel -> df w' = Some rows /\ next_ w' = next1)%nat.
Proof.
  intros Hs Ht Hr Hts Hlt Hle.
  induction fuel as [|fuel IH]; intros w Hf.
  - exists w. cbn [while_flag]. rewrite Hf.
    repeat split; auto; lia.
  - cbn [while_flag]. rewrite Hf.
    rewrite (loop_body_first_page E w total next1 limit remaining reset
               rows t r ts (Hs _ _) Ht Hr Hts Hlt).
    destruct (Z.gtb_spec t r) as [Hgt|_]; [lia |].
    set (w1 := set_next_ next1 (after_first_page w t limit remaining ts rows)).
    destruct (IH w1 Hf) as (w' & Hrun & Hcalls & Hflag & Hdf).
    exists w'. split; [exact Hrun |].
    split; [rewrite Hcalls; cbn; lia |]. split; [exact Hflag |].
    intros _. destruct fuel as [|fuel].
    + cbn [while_flag] in Hrun.
      replace (flag w1) with true in Hrun by (symmetry; exact Hf).
      injection Hrun as <-. split; reflexivity.
    + apply Hdf. lia.
Qed.

End LongRunTheorems.

Lemma multi_page_run_witness :
  exists w',
    pagination four_pages 4 issn_notebook = Done w'
    /\ calls w' = 4%nat
    /\ df w' = Some [row "Indexing"; row "Retrieval"; row "Citation";
                     row "Ranking"; row "Metrics"]
    /\ cursors_of (trace w')
       = [Some "*"; Some "AoJ1"; Some "AoJ2"; Some "AoJ3"].
Proof.
  apply (multi_page_run four_pages issn_notebook 4
           "5" "AoJ1" "20000" "19975" "1700000000"
           [row "Indexing"; row "Retrieval"] 5 19975 1700000000
           [second_page; third_page] "5" "AoJ3" [] no_headers 5).
  - intros i req. reflexivity.
  - reflexivity.
  - reflexivity.
  - reflexivity.
  - reflexivity.
  - lia.
  - reflexivity.
  - reflexivity.
  - discriminate.
  - simpl. lia.
Defined.

Lemma first_page_forever_witness :
  exists w',
    while_flag (always first_page) 3 (start issn_notebook) = OutOfFuel w'
    /\ calls w' = 3%nat
    /\ flag w' = true
    /\ ((0 < 3)%nat ->
        df w' = Some [row "Indexing"; row "Retrieval"] /\ next_ w' = "AoJ1").
Proof.
  apply (first_page_forever (always first_page)
           "3" "AoJ1" "20000" "19975" "1700000000"
           [row "Indexing"; row "Retrieval"] 3 19975 1700000000).
  - intros n req. reflexivity.
  - reflexivity.
  - reflexivity.
  - reflexivity.
  - reflexivity.
  - lia.
  - reflexivity.
Defined.

(** ** What every run keeps *)

Section RunInvariants.
Variable E : Env.

(** What a pass leaves alone, however it ends. *)
Lemma loop_body_frame (w : World) :
  wp (loop_body E)
     (fun r w' =>
        api_key w' = api_key w
        /\ search_string w' = search_string w
        /\ dicts w' default_params
           = <["cursor" := next_ w]> (dicts w default_params)
        /\ (forall p, p <> default_params -> dicts w' p = dicts w p)
        /\ (forall c, r = Ok c -> is_Some (df w'))
        /\ (forall e, r = Raise e -> e <> ValueError -> e <> KeyError "@next" ->
              df w' = df w)
        /\ (r = Ok Break -> flag w' = flag w /\ next_ w' = next_ w)) w.
Proof.
  unfold loop_body, Search.connect_to_endpoint. wp_run.
  all: cbn -[String.append pacing] in *.
  all: repeat split; try reflexivity.
  all: try (intros p Hp; destruct p; [contradiction | reflexivity]).
  all: intros; simplify_eq; try reflexivity; try congruence.
  all: unfold is_Some; eexists; first [reflexivity | eassumption].
Qed.

Lemma gets_of_prints (prints : list event) :
  forallb is_print prints = true -> gets_of prints = [].
Proof.
  induction prints as [|[s|r|a] prints IH]; simpl; intros H;
    try discriminate; auto.
Qed.

Lemma sleeps_of_prints (prints : list event) :
  forallb is_print prints = true -> List.filter is_sleep prints = [].
Proof.
  induction prints as [|[s|r|a] prints IH]; simpl; intros H;
    try discriminate; auto.
Qed.

(** X3.  A run sends exactly one request in each pass through the loop
    body and pauses exactly once before it: the requests added to the
    history, the pauses added and the growth of the call counter all equal
    the number of passes the loop makes.  That number is at least one when
    the loop is entered with [flag] set, and it is the number of passes
    allowed when the run is cut short. *)
Theorem one_request_per_pass (fuel : nat) (w : World) :
  (exists added,
      trace (final_world (while_flag E fuel w)) = (trace w ++ added)%list
      /\ length (gets_of added) = passes_made E fuel w
      /\ length (List.filter is_sleep added) = passes_made E fuel w
      /\ calls (final_world (while_flag E fuel w))
         = (calls w + passes_made E fuel w)%nat)
  /\ (flag w = true -> (1 <= fuel)%nat -> (1 <= passes_made E fuel w)%nat)
  /\ (forall w', while_flag E fuel w = OutOfFuel w' ->
                 passes_made E fuel w = fuel)
  /\ (passes_made E fuel w <= fuel)%nat.
Proof.
  split; [| split; [| split]].
  - revert w. induction fuel as [|fuel IH]; intros w;
      cbn [while_flag passes_made].
    + exists []. destruct (flag w); cbn; rewrite app_nil_r; repeat split; lia.
    + destruct (flag w);
        [| exists []; cbn; rewrite app_nil_r; repeat split; lia].
      destruct (loop_body_events E w) as (prints & Ht & Hp).
      pose proof (loop_body_calls E w) as Hc.
      assert (Hg : gets_of (EvSleep pacing :: EvGet (next_request w) :: prints)
                   = [next_request w])
        by (cbn [gets_of]; now rewrite gets_of_prints).
      assert (Hsl : List.filter is_sleep
                      (EvSleep pacing :: EvGet (next_request w) :: prints)
                    = [EvSleep pacing])
        by (cbn [List.filter is_sleep]; now rewrite sleeps_of_prints).
      destruct (loop_body E w) as [[[|]|e] w1]; cbn [snd final_world] in *.
      * destruct (IH w1) as (added & Ha & Hga & Hs & Hca).
        exists ((EvSleep pacing :: EvGet (next_request w) :: prints) ++ added)%list.
        rewrite gets_of_app, List.filter_app, !length_app, Hg, Hsl.
        split; [rewrite Ha, Ht; now rewrite <- app_assoc |].
        cbn [length]. repeat split; lia.
      * eexists. split; [exact Ht |]. rewrite Hg, Hsl. cbn. repeat split; lia.
      * eexists. split; [exact Ht |]. rewrite Hg, Hsl. cbn. repeat split; lia.
  - intros Hf Hfuel. destruct fuel as [|fuel]; [lia |].
    cbn [passes_made]. rewrite Hf.
    destruct (loop_body E w) as [[[|]|e] w1]; lia.
  - revert w. induction fuel as [|fuel IH]; intros w w';
      cbn [while_flag passes_made]; destruct (flag w); try discriminate.
    + reflexivity.
    + destruct (loop_body E w) as [[[|]|e] w1]; try discriminate.
      intros H. now rewrite (IH w1 w' H).
  - revert w. induction fuel as [|fuel IH]; intros w; cbn [passes_made];
      destruct (flag w); try lia.
    destruct (loop_body E w) as [[[|]|e] w1]; try lia.
    specialize (IH w1). lia.
Qed.

Lemma loop_body_globals (w : World) :
  api_key (snd (loop_body E w)) = api_key w
  /\ search_string (snd (loop_body E w)) = search_string w
  /\ dicts (snd (loop_body E w)) default_params
     = <["cursor" := next_ w]> (dicts w default_params)
  /\ (forall p, p <> default_params -> dicts (snd (loop_body E w)) p = dicts w p).
Proof.
  destruct (loop_body_frame w) as (H1 & H2 & H3 & H4 & _). auto.
Qed.

(** The requests of the loop, from any world. *)
Lemma while_flag_requests (fuel : nat) (w : World) :
  api_key (final_world (while_flag E fuel w)) = api_key w
  /\ search_string (final_world (while_flag E fuel w)) = search_string w
  /\ (forall p, p <> default_params ->
        dicts (final_world (while_flag E fuel w)) p = dicts w p)
  /\ (forall k, k <> "cursor" ->
        dicts (final_world (while_flag E fuel w)) default_params !! k
        = dicts w default_params !! k)
  /\ exists added,
       trace (final_world (while_flag E fuel w)) = (trace w ++ added)%list
       /\ Forall (fun r =>
                    req_url r = search_url w
                    /\ req_headers r = ∅
                    /\ forall k, k <> "cursor" ->
                         req_params r !! k = dicts w default_params !! k)
            (gets_of added).
Proof.
  revert w. induction fuel as [|fuel IH]; intros w; cbn [while_flag].
  - assert (Hid : final_world (if flag w then OutOfFuel w else Done w) = w)
      by now destruct (flag w).
    rewrite Hid. do 4 (split; [reflexivity |]).
    exists []. rewrite app_nil_r. split; [reflexivity | apply List.Forall_nil].
  - destruct (flag w);
      [| cbn [final_world]; do 4 (split; [reflexivity |]);
         exists []; rewrite app_nil_r;
         split; [reflexivity | apply List.Forall_nil]].
    destruct (loop_body_events E w) as (prints & Ht & Hp).
    destruct (loop_body_globals w) as (Hk & Hq & Hd & Ho).
    assert (Hreq : req_url (next_request w) = search_url w
                   /\ req_headers (next_request w) = ∅
                   /\ forall k, k <> "cursor" ->
                        req_params (next_request w) !! k
                        = dicts w default_params !! k).
    { repeat split. intros k Hne. cbn. now apply lookup_insert_ne. }
    destruct (loop_body E w) as [[[|]|e] w1]; cbn [snd final_world] in *.
    + destruct (IH w1) as (Hk1 & Hq1 & Ho1 & Hd1 & added & Ha & Hall).
      split; [congruence |]. split; [congruence |].
      split; [intros p Hp'; rewrite Ho1, Ho; auto |].
      split.
      { intros k Hne. rewrite (Hd1 k Hne), Hd. now apply lookup_insert_ne. }
      exists ((EvSleep pacing :: EvGet (next_request w) :: prints) ++ added)%list.
      split; [rewrite Ha, Ht; now rewrite <- app_assoc |].
      rewrite gets_of_app. cbn [gets_of]. rewrite (gets_of_prints _ Hp).
      cbn [app]. constructor; [exact Hreq |].
      eapply Forall_impl; [exact Hall |].
      intros r (Hu & Hh & Hpar). unfold search_url in *.
      rewrite Hq, Hk in Hu. split; [exact Hu |]. split; [exact Hh |].
      intros k Hne. rewrite (Hpar k Hne), Hd. now apply lookup_insert_ne.
    + split; [exact Hk |]. split; [exact Hq |]. split; [exact Ho |].
      split; [intros k Hne; rewrite Hd; now apply lookup_insert_ne |].
      eexists. split; [exact Ht |]. cbn [gets_of].
      rewrite (gets_of_prints _ Hp). constructor; [exact Hreq | constructor].
    + split; [exact Hk |]. split; [exact Hq |]. split; [exact Ho |].
      split; [intros k Hne; rewrite Hd; now apply lookup_insert_ne |].
      eexists. split; [exact Ht |]. cbn [gets_of].
      rewrite (gets_of_prints _ Hp). constructor; [exact Hreq | constructor].
Qed.

(** X4.  All requests of a run of the cell go to the same URL, the one
    built from the query and the key the run started with, without request
    headers, and they differ from one another in the ['cursor'] parameter
    only; the run changes no key of the shared default dictionary other
    than ['cursor'], no other dictionary, and neither the query nor the
    key. *)
Theorem run_requests_differ_in_cursor_only (fuel : nat) (w : World) :
  api_key (final_world (pagination E fuel w)) = api_key w
  /\ search_string (final_world (pagination E fuel w)) = search_string w
  /\ (forall p, p <> default_params ->
        dicts (final_world (pagination E fuel w)) p = dicts w p)
  /\ (forall k, k <> "cursor" ->
        dicts (final_world (pagination E fuel w)) default_params !! k
        = dicts w default_params !! k)
  /\ exists added,
       trace (final_world (pagination E fuel w)) = (trace w ++ added)%list
       /\ Forall (fun r =>
                    req_url r = search_url w
                    /\ req_headers r = ∅
                    /\ forall k, k <> "cursor" ->
                         req_params r !! k = dicts w default_params !! k)
            (gets_of added).
Proof.
  unfold pagination. fold (start w).
  exact (while_flag_requests fuel (start w)).
Qed.

End RunInvariants.

(** ** Failures and edge cases of a pass *)

Section PassFailures.
Variable E : Env.

Lemma loop_body_raise_keeps_df (w w' : World) (e : exn) :
  loop_body E w = (Raise e, w') ->
  e <> ValueError -> e <> KeyError "@next" ->
  df w' = df w.
Proof.
  intros H Hv Hk.
  destruct (loop_body_frame E w) as (_ & _ & _ & _ & _ & Hdf & _).
  rewrite H in Hdf. now apply (Hdf e).
Qed.

(** X5.  A pass that raises leaves [df] as it was, unless what it raises is
    a [ValueError] or the [KeyError] of a missing ['@next']; so a run that
    ends in any other exception (no response, an HTTP error, a payload that
    is not JSON, a missing envelope key or header, an unbound [df]) has the
    [df] that the passes before the failing one had made of it. *)
Theorem failed_pass_keeps_dataframe :
  (forall w e w',
      loop_body E w = (Raise e, w') ->
      e <> ValueError -> e <> KeyError "@next" ->
      df w' = df w)
  /\ (forall fuel w e w',
        while_flag E fuel w = Error e w' ->
        e <> ValueError -> e <> KeyError "@next" ->
        exists n w_n,
          passes E n w = Some w_n
          /\ loop_body E w_n = (Raise e, w')
          /\ df w' = df w_n).
Proof.
  split; [intros w e w'; apply loop_body_raise_keeps_df |].
  induction fuel as [|fuel IH]; intros w e w'; cbn [while_flag];
    destruct (flag w) eqn:Hf; try discriminate.
  destruct (loop_body E w) as [[[|]|e1] w1] eqn:Hb; try discriminate.
  - intros H Hv Hk. destruct (IH _ _ _ H Hv Hk) as (n & w_n & Hn & Hl & Hd).
    exists (S n), w_n. cbn [passes]. rewrite Hf, Hb. auto.
  - intros [= -> ->] Hv Hk. exists 0%nat, w. cbn [passes].
    split; [reflexivity |]. split; [exact Hb |].
    now apply (loop_body_raise_keeps_df w w' e).
Qed.

(** X6.  The first-page branch prints the rate limits before it stores the
    page.  When an argument of that print cannot be evaluated, the pass
    raises after printing the result count only: the [KeyError] of the
    missing header, with its name in lower case, the [ValueError] of a
    reset header that is not an integer, or the error with which the
    platform refuses the epoch.  [df] is as it was, the page's rows are not
    stored, and the run ends with that exception. *)
Theorem first_page_lost_without_rate_headers (w : World)
    (total next1 : string) (rows : list json) (h : Headers) (t : Z) :
  server E (calls w) (next_request w)
    = Some (mk_response 200 (mk_page total "*" next1 rows) h) ->
  PyText.int total = Some t ->
  rate_report E h = None ->
  exists e,
    loop_body E w
    = (Raise e,
       emit (EvPrint [PStr "Collecting"; PInt t; PStr "results."])
         (after_request w))
    /\ In e [KeyError "x-ratelimit-limit"; KeyError "x-ratelimit-remaining";
             KeyError "x-ratelimit-reset"; ValueError; OverflowError; OSError]
    /\ df (snd (loop_body E w)) = df w
    /\ (forall fuel,
          (1 <= fuel)%nat -> flag w = true ->
          while_flag E fuel w = Error e (snd (loop_body E w))).
Proof.
  intros Hs Ht Hrr.
  assert (G : wp (loop_body E)
                (fun r w' =>
                   (exists e,
                       r = Raise e
                       /\ In e [KeyError "x-ratelimit-limit";
                                KeyError "x-ratelimit-remaining";
                                KeyError "x-ratelimit-reset";
                                ValueError; OverflowError; OSError])
                   /\ w' = emit (EvPrint [PStr "Collecting"; PInt t; PStr "results."])
                             (after_request w)) w).
  { unfold loop_body, Search.connect_to_endpoint. wp_run.
    all: unfold rate_report in Hrr; wp_decide.
    all: try (split; [eexists; split; [reflexivity | cbn; tauto]
                     | reflexivity]).
    all: repeat match goal with
           | Hx : ?l = Some _, Hr : context [?l] |- _ => rewrite Hx in Hr
           | Hx : ?l = true, Hr : context [?l] |- _ => rewrite Hx in Hr
           end; try discriminate. }
  unfold wp in G. destruct (loop_body E w) as [r w1] eqn:Hb.
  cbn [fst snd] in G. destruct G as ((e & -> & Hin) & ->).
  exists e. split; [reflexivity |]. split; [exact Hin |].
  split; [reflexivity |].
  intros fuel Hfuel Hf. destruct fuel as [|fuel]; [lia |].
  cbn [while_flag snd]. now rewrite Hf, Hb.
Qed.

(** X7.  When [df] was never assigned and a well-formed page arrives whose
    [@current] is not [*], the pass raises [NameError] for [df] right after
    the request, whichever of the two later branches the page selects. *)
Theorem unbound_dataframe_raises (w : World)
    (total current next1 : string) (rows : list json) (h : Headers) (t : Z) :
  server E (calls w) (next_request w)
    = Some (mk_response 200 (mk_page total current next1 rows) h) ->
  PyText.int total = Some t ->
  current <> "*" ->
  df w = None ->
  loop_body E w = (Raise (NameError "df"), after_request w).
Proof.
  intros Hs Ht Hc Hd. apply wp_eq.
  unfold loop_body, Search.connect_to_endpoint. wp_run.
  all: wp_decide.
  all: match goal with H : String.eqb _ "*" = true |- _ =>
         apply String.eqb_eq in H; contradiction end.
Qed.

Lemma while_flag_binds_df (fuel : nat) :
  forall w w',
    flag w = true \/ is_Some (df w) ->
    while_flag E fuel w = Done w' \/ while_flag E fuel w = QuotaExceeded w' ->
    is_Some (df w').
Proof.
  induction fuel as [|fuel IH]; intros w w' Hinv; cbn [while_flag].
  - destruct (flag w); intros [H|H]; try discriminate.
    injection H as <-. destruct Hinv as [Hinv|Hinv]; [discriminate | exact Hinv].
  - destruct (flag w) eqn:Hf.
    + destruct (loop_body_frame E w) as (_ & _ & _ & _ & Hok & _).
      destruct (loop_body E w) as [[[|]|e] w1]; cbn [fst snd] in Hok.
      * apply IH. right. now apply (Hok Next).
      * intros [H|H]; try discriminate. injection H as <-.
        now apply (Hok Break).
      * intros [H|H]; discriminate.
    + intros [H|H]; try discriminate. injection H as <-.
      destruct Hinv as [Hinv|Hinv]; [discriminate | exact Hinv].
Qed.

(** X8.  A run of the cell that ends normally, by [flag] turning false or
    by the [break] of the quota guard, leaves [df] bound, whatever the
    notebook held before: the cells that follow can use [df]. *)
Theorem normal_end_binds_dataframe (fuel : nat) (w w' : World) :
  pagination E fuel w = Done w' \/ pagination E fuel w = QuotaExceeded w' ->
  is_Some (df w').
Proof.
  unfold pagination. apply while_flag_binds_df. now left.
Qed.

End PassFailures.

Lemma failed_pass_keeps_dataframe_witness :
  exists n w_n,
    passes one_page_then_silence n (start issn_notebook) = Some w_n
    /\ loop_body one_page_then_silence w_n
       = (Raise RequestException,
          final_world (while_flag one_page_then_silence 3 (start issn_notebook)))
    /\ df (final_world (while_flag one_page_then_silence 3 (start issn_notebook)))
       = df w_n.
Proof.
  apply (proj2 (failed_pass_keeps_dataframe one_page_then_silence)
           3%nat (start issn_notebook) RequestException).
  - vm_compute. reflexivity.
  - discriminate.
  - discriminate.
Defined.

Lemma first_page_lost_without_rate_headers_witness :
  exists e,
    loop_body (scripted [page_without_reset]) (start issn_notebook)
    = (Raise e,
       emit (EvPrint [PStr "Collecting"; PInt 3; PStr "results."])
         (after_request (start issn_notebook)))
    /\ In e [KeyError "x-ratelimit-limit"; KeyError "x-ratelimit-remaining";
             KeyError "x-ratelimit-reset"; ValueError; OverflowError; OSError]
    /\ df (snd (loop_body (scripted [page_without_reset]) (start issn_notebook)))
       = df (start issn_notebook)
    /\ (forall fuel,
          (1 <= fuel)%nat -> flag (start issn_notebook) = true ->
          while_flag (scripted [page_without_reset]) fuel (start issn_notebook)
          = Error e (snd (loop_body (scripted [page_without_reset])
                            (start issn_notebook)))).
Proof.
  apply (first_page_lost_without_rate_headers (scripted [page_without_reset])
           (start issn_notebook) "3" "AoJ1"
           [row "Indexing"; row "Retrieval"]
           {| X_RateLimit_Limit := Some "20000";
              X_RateLimit_Remaining := Some "19975";
              X_RateLimit_Reset := None |} 3).
  - reflexivity.
  - reflexivity.
  - reflexivity.
Defined.

Lemma unbound_dataframe_raises_witness :
  loop_body (scripted [last_page]) (start issn_notebook)
  = (Raise (NameError "df"), after_request (start issn_notebook)).
Proof.
  apply (unbound_dataframe_raises (scripted [last_page]) (start issn_notebook)
           "3" "AoJ1" "AoJ1" [row "Citation"]
           (mk_headers "20000" "19974" "1700000000") 3).
  - reflexivity.
  - reflexivity.
  - discriminate.
  - reflexivity.
Defined.

Lemma normal_end_binds_dataframe_witness :
  is_Some (df (final_world (pagination over_quota 1 issn_notebook))).
Proof.
  apply (normal_end_binds_dataframe over_quota 1 issn_notebook).
  right. vm_compute. reflexivity.
Defined.

(** ** More on the query builder and the request formatter *)

Section QueryBuilderMore.
Import PyText QueryBuilder.

Lemma append_nonempty_l (a b : string) :
  String.eqb a "" = false -> String.eqb (a +:+ b) "" = false.
Proof. destruct a; simpl; [discriminate | reflexivity]. Qed.

Lemma concat_terms_nonempty (t : string) (ts : list string) :
  String.eqb t "" = false ->
  String.eqb (String.concat " AND " (t :: ts)) "" = false.
Proof.
  intros H. destruct ts as [|t' ts]; [exact H |].
  change (String.concat " AND " (t :: t' :: ts))
    with (t +:+ " AND " +:+ String.concat " AND " (t' :: ts)).
  now apply append_nonempty_l.
Qed.

Lemma non_default_fields_nil (ps : list (string * value)) :
  non_default_fields ps = []
  <-> forallb (fun kv => is_default (snd kv)) ps = true.
Proof.
  unfold non_default_fields.
  induction ps as [|[k v] ps IH]; [now split |].
  cbn [List.filter forallb snd]. destruct (is_default v); cbn [negb andb].
  - exact IH.
  - split; discriminate.
Qed.

(** X9.  The query is empty exactly when every field of the mapping has
    the value [''] or [0]; as soon as one field carries a value, the query
    is not empty. *)
Theorem search_builder_empty_iff (ps : list (string * value)) :
  search_builder ps = ""
  <-> forallb (fun kv => is_default (snd kv)) ps = true.
Proof.
  rewrite <- non_default_fields_nil, search_builder_spec_query.
  unfold spec_query.
  destruct (non_default_fields ps) as [|kv kvs]; [now split |].
  cbn [map]. split; [| discriminate].
  intros H.
  pose proof (concat_terms_nonempty (term kv) (map term kvs) (term_nonempty kv)) as Hn.
  rewrite H in Hn. discriminate.
Qed.

(** X10.  Building the query of two mappings put one after the other gives
    the two queries joined by [" AND "], or the one that is not empty when
    the other is. *)
Theorem search_builder_app (ps qs : list (string * value)) :
  search_builder (ps ++ qs)%list
  = if String.eqb (search_builder ps) "" then search_builder qs
    else if String.eqb (search_builder qs) "" then search_builder ps
    else search_builder ps +:+ " AND " +:+ search_builder qs.
Proof.
  unfold search_builder at 1. rewrite fold_left_app.
  fold (search_builder ps). rewrite fold_search_builder_body.
  rewrite (search_builder_spec_query qs). unfold spec_query.
  destruct (map term (non_default_fields qs)) as [|t ts] eqn:Hts.
  - cbn [String.concat].
    destruct (String.eqb (search_builder ps) "") eqn:Hp; [| reflexivity].
    now apply String.eqb_eq in Hp.
  - assert (Ht : String.eqb t "" = false).
    { destruct (non_default_fields qs) as [|kv kvs]; [discriminate |].
      cbn [map] in Hts. injection Hts as <- _. apply term_nonempty. }
    rewrite (concat_terms_nonempty t ts Ht).
    unfold add_separator.
    destruct (String.eqb (search_builder ps) "") eqn:Hp; cbn [negb].
    + apply String.eqb_eq in Hp. now rewrite Hp.
    + now rewrite append_assoc.
Qed.

(** X11.  Values are copied into the query as they are: a single field
    whose value closes its own parenthesis and opens another field's gives
    the very query of the two fields. *)
Theorem search_builder_value_can_add_a_term (k k2 a b : string) :
  String.eqb k "start_year" = false -> String.eqb k "end_year" = false ->
  String.eqb k2 "start_year" = false -> String.eqb k2 "end_year" = false ->
  a <> "" -> b <> "" ->
  search_builder [(k, VStr (a +:+ ") AND " +:+ k2 +:+ "(" +:+ b))]
  = search_builder [(k, VStr a); (k2, VStr b)].
Proof.
  intros Hk1 Hk2 Hk3 Hk4 Ha Hb.
  apply String.eqb_neq in Ha, Hb.
  rewrite !search_builder_spec_query. unfold spec_query, non_default_fields.
  cbn [List.filter snd is_default].
  rewrite (append_nonempty_l a _ Ha), Ha, Hb. cbn [negb map term].
  rewrite Hk1, Hk2, Hk3, Hk4. cbn [String.concat fmt].
  rewrite !append_assoc. simpl. reflexivity.
Qed.

(** X12.  Neither the query nor the key is escaped: text after
    [&apiKey=] inside the query is indistinguishable, in the URL, from text
    before it inside the key. *)
Theorem create_url_query_can_add_a_parameter (w1 w2 : World) (q x : string) :
  api_key w2 = x +:+ "&apiKey=" +:+ api_key w1 ->
  fst (Search.create_url (q +:+ "&apiKey=" +:+ x) w1)
  = fst (Search.create_url q w2).
Proof.
  intros H. rewrite !search_create_url_value. cbn [fst]. rewrite H.
  now rewrite !append_assoc.
Qed.

End QueryBuilderMore.

Lemma search_builder_value_can_add_a_term_witness :
  QueryBuilder.search_builder
    [("TITLE", QueryBuilder.VStr ("cat" +:+ ") AND " +:+ "KEY" +:+ "(" +:+ "dog"))]
  = QueryBuilder.search_builder
      [("TITLE", QueryBuilder.VStr "cat"); ("KEY", QueryBuilder.VStr "dog")].
Proof.
  apply (search_builder_value_can_add_a_term "TITLE" "KEY" "cat" "dog");
    first [reflexivity | discriminate].
Defined.

Lemma create_url_query_can_add_a_parameter_witness :
  fst (Search.create_url ("ISSN(1)" +:+ "&apiKey=" +:+ "7f59")
         (fresh_notebook "af" ""))
  = fst (Search.create_url "ISSN(1)" (fresh_notebook "7f59&apiKey=af" "")).
Proof.
  apply (create_url_query_can_add_a_parameter
           (fresh_notebook "af" "") (fresh_notebook "7f59&apiKey=af" "")
           "ISSN(1)" "7f59").
  reflexivity.
Defined.

(** ** The cells around the loop *)

Section OtherCells.
Variable E : Env.

(** The request of the example search, from any world. *)
Lemma example_search_asks_first_page (w : World) :
  let w' := snd (example_search_cell E w) in
  gets_of (trace w')
  = (gets_of (trace w)
     ++ [{| req_url := search_url w;
            req_params := <["cursor" := "*"]> (dicts w default_params);
            req_headers := ∅ |}])%list
  /\ dicts w' default_params = <["cursor" := "*"]> (dicts w default_params)
  /\ calls w' = S (calls w)
  /\ df w' = df w.
Proof.
  assert (G : wp (example_search_cell E)
                (fun _ w' =>
                   trace w'
                   = (trace w
                      ++ [EvGet {| req_url := search_url w;
                                   req_params := <["cursor" := "*"]> (dicts w default_params);
                                   req_headers := ∅ |}])%list
                   /\ dicts w' default_params
                      = <["cursor" := "*"]> (dicts w default_params)
                   /\ calls w' = S (calls w)
                   /\ df w' = df w) w).
  { unfold example_search_cell, Search.connect_to_endpoint. wp_run.
    all: cbn -[String.append]; repeat split; reflexivity. }
  unfold wp in G. cbv zeta. destruct G as (Ht & Hd & Hc & Hdf).
  rewrite Ht, gets_of_app. auto.
Qed.

(** X13.  Run after a paging run of any length and outcome, from a session
    in which the default dictionary was [{'cursor': '*'}], the example
    search (a call that omits [params] and [next_]) sends that very
    dictionary again, to the URL of the same query and key: the cursor the
    run left in the shared dictionary is overwritten by the default [*],
    and the run never added another key. *)
Theorem example_search_after_run (fuel : nat) (w : World) :
  dicts w default_params = {[ "cursor" := "*" ]} ->
  let w1 := final_world (pagination E fuel w) in
  gets_of (trace (snd (example_search_cell E w1)))
  = (gets_of (trace w1)
     ++ [{| req_url := search_url w;
            req_params := {[ "cursor" := "*" ]};
            req_headers := ∅ |}])%list.
Proof.
  intros Hd w1. subst w1. unfold pagination. fold (start w).
  destruct (example_search_asks_first_page
              (final_world (while_flag E fuel (start w)))) as (Hg & _).
  rewrite Hg. f_equal. f_equal.
  destruct (while_flag_requests E fuel (start w))
    as (Hk & Hq & _ & Hkeys & _).
  f_equal.
  - unfold search_url. rewrite Hk, Hq. reflexivity.
  - apply map_eq. intros k. destruct (decide (k = "cursor")) as [->|Hne].
    + now rewrite lookup_insert_eq, lookup_singleton_eq.
    + rewrite lookup_insert_ne by congruence.
      rewrite (Hkeys k Hne). cbn [start set_flag set_next_ dicts].
      now rewrite Hd.
Qed.

(** X14.  The single-DOI cells send one request, to the retrieval URL of
    that DOI and the key, with the header [Accept: application/json] and no
    query parameters, and touch nothing the search cells use: [df], the
    cursor, the flag and the [params] dictionaries are as before, whether
    the cells succeed or raise. *)
Theorem retrieve_doi_leaves_search_state (doi : string) (w : World) :
  let w' := snd (retrieve_doi_cells E doi w) in
  gets_of (trace w')
  = (gets_of (trace w)
     ++ [{| req_url := "https://api.elsevier.com/content/abstract/doi/"
                         +:+ doi +:+ "?&apiKey=" +:+ api_key w;
            req_params := ∅;
            req_headers := {[ "Accept" := "application/json" ]} |}])%list
  /\ calls w' = S (calls w)
  /\ df w' = df w /\ next_ w' = next_ w /\ flag w' = flag w
  /\ dicts w' = dicts w
  /\ api_key w' = api_key w /\ search_string w' = search_string w.
Proof.
  assert (G : wp (retrieve_doi_cells E doi)
                (fun _ w' =>
                   (exists prints,
                       trace w'
                       = (trace w
                          ++ EvPrint [PStr ("https://api.elsevier.com/content/abstract/doi/"
                                              +:+ doi +:+ "?&apiKey=" +:+ api_key w)]
                          :: EvGet {| req_url := "https://api.elsevier.com/content/abstract/doi/"
                                                   +:+ doi +:+ "?&apiKey=" +:+ api_key w;
                                      req_params := ∅;
                                      req_headers := {[ "Accept" := "application/json" ]} |}
                          :: prints)%list
                       /\ forallb is_print prints = true)
                   /\ calls w' = S (calls w)
                   /\ df w' = df w /\ next_ w' = next_ w /\ flag w' = flag w
                   /\ dicts w' = dicts w
                   /\ api_key w' = api_key w /\ search_string w' = search_string w) w).
  { unfold retrieve_doi_cells, Retrieval.connect_to_endpoint. wp_run.
    all: cbn -[String.append].
    all: (split; [eexists; split;
                    [rewrite <- ?app_assoc; cbn [app]; reflexivity | reflexivity]
                 | repeat split; reflexivity]). }
  unfold wp in G. cbv zeta.
  destruct G as ((prints & Ht & Hp) & Hrest).
  split; [| exact Hrest].
  rewrite Ht, gets_of_app. cbn [gets_of]. now rewrite (gets_of_prints _ Hp).
Qed.

End OtherCells.

Lemma example_search_after_run_witness :
  gets_of (trace (snd (example_search_cell four_pages
                         (final_world (pagination four_pages 4 issn_notebook)))))
  = (gets_of (trace (final_world (pagination four_pages 4 issn_notebook)))
     ++ [{| req_url := search_url issn_notebook;
            req_params := {[ "cursor" := "*" ]};
            req_headers := ∅ |}])%list.
Proof.
  apply (example_search_after_run four_pages 4 issn_notebook).
  reflexivity.
Defined.

Lemma one_request_per_pass_witness :
  (1 <= passes_made two_pages 2 (start issn_notebook))%nat
  /\ passes_made two_pages 2 (start issn_notebook) = 2%nat
  /\ calls (final_world (while_flag two_pages 2 (start issn_notebook))) = 2%nat.
Proof.
  split; [| split; reflexivity].
  apply (proj1 (proj2 (one_request_per_pass two_pages 2 (start issn_notebook)))).
  - reflexivity.
  - lia.
Defined.

Example int_blanks :
  PyText.int (String "028" "100") = None
  /\ PyText.int (String "160" "100") = Some 100%Z
  /\ PyText.int (String "133" (String "009" "100 ")) = Some 100%Z
  /\ PyText.int (String "049" (String "031" "")) = None.
Proof. repeat split; reflexivity. Qed.

Example header_key_error :
  fst (header_getitem "X-RateLimit-Reset" None issn_notebook)
  = Raise (KeyError "x-ratelimit-reset").
Proof. reflexivity. Qed.
